(** * Exam proctoring: violation classification and report statistics

    A shallow embedding of the violation pipeline of the exam proctoring
    program: the per-frame violation loop and the status overlay of
    [src/main.py], and the statistics and report export of
    [src/reporting/report_generator.py]. *)

From Stdlib Require Import ZArith QArith Floats String Ascii Lia.
From stdpp Require Import gmap strings list fin_maps sorting.

Set Warnings "-inexact-float".

Local Open Scope string_scope.
Local Open Scope Z_scope.

(** ** Python values shared by both source files *)

(** The exceptions the modelled code can meet.  [Error msg] stands for any
    other subclass of [Exception] raised by a collaborator, [msg] being its
    [str(e)]. *)
Inductive exn : Type :=
  | ZeroDivisionError
  | Error (msg : string).

Definition str_exn (e : exn) : string :=
  match e with
  | ZeroDivisionError => "division by zero"
  | Error msg => msg
  end.

(** The outcome of an expression that may raise. *)
Inductive result (A : Type) : Type :=
  | Ok (a : A)
  | Raise (e : exn).
Arguments Ok {A} a.
Arguments Raise {A} e.

#[global] Instance result_ret : MRet result := λ A a, Ok a.
#[global] Instance result_bind : MBind result := λ A B k r,
  match r with
  | Ok a => k a
  | Raise e => Raise e
  end.
#[global] Instance result_fmap : FMap result := λ A B f r,
  match r with
  | Ok a => Ok (f a)
  | Raise e => Raise e
  end.

(** A Python number: an [int], or a [float] kept as the exact rational that
    CPython rounds to the nearest double. *)
Inductive pynum : Type :=
  | PyInt (z : Z)
  | PyFloat (q : Q).

(** [a / b] on two ints: [ZeroDivisionError] for a zero divisor, otherwise
    the true quotient. *)
Definition true_div (a b : Z) : result Q :=
  if b =? 0 then Raise ZeroDivisionError
  else Ok (inject_Z a / inject_Z b)%Q.

(** The double CPython returns for the quotient [q] of two ints below
    [2^53]: both convert exactly and IEEE division rounds to nearest. *)
Definition to_double (q : Q) : float :=
  PrimFloat.div (PrimFloat.of_uint63 (Uint63.of_Z (Qnum q)))
                (PrimFloat.of_uint63 (Uint63.of_Z (Zpos (Qden q)))).

(** [str.lower] on a string of ASCII characters. *)
Definition lower_char (c : ascii) : ascii :=
  let n := nat_of_ascii c in
  if ((65 <=? n) && (n <=? 90))%nat then ascii_of_nat (n + 32) else c.

Fixpoint lower (s : string) : string :=
  match s with
  | EmptyString => EmptyString
  | String c s' => String (lower_char c) (lower s')
  end.

(** Truth value of an expression that is [None] or a string. *)
Definition truthy (o : option string) : bool :=
  match o with
  | Some (String _ _) => true
  | _ => false
  end.

(** ** Data model *)

(** A logged violation: the dict with keys ['type'] and ['timestamp'] that
    the violation logger hands to the report generator. *)
Record violation : Type := Violation {
  vtype : string;
  timestamp : string
}.

(** The [results] dict of one frame, built in the capture loop of [main]. *)
Record results : Type := Results {
  face_present : bool;
  gaze_direction : string;
  eye_ratio : float;
  mouth_moving : bool;
  multiple_faces : bool;
  objects_detected : bool;
  frame_timestamp : string
}.

(** One element of [stats['timeline']]. *)
Record timeline_entry : Type := TimelineEntry {
  time : string;
  type : string;
  severity : Z
}.

(** The [stats] dict.  A key that is set only later in the code is an
    option: [None] while the key is absent.  [by_type] is a finite map: as
    in Python, two such dicts are equal when they hold the same counts under
    the same keys. *)
Record stats : Type := Stats {
  total : Z;
  by_type : gmap string Z;
  timeline : list timeline_entry;
  severity_score : Z;
  average_severity : option pynum;
  integrity_score : option Z
}.

(** The [student_info] dict, keys ['id'], ['name'], ['exam'], ['course']. *)
Record student_info : Type := StudentInfo {
  st_id : string;
  st_name : string;
  st_exam : string;
  st_course : string
}.

(** The [report_data] dict handed to the template. *)
Record report_data : Type := ReportData {
  rd_student : student_info;
  rd_violations : list violation;
  rd_generated_at : string;
  rd_stats : stats;
  rd_timeline_image : option string;
  rd_heatmap_image : option string;
  rd_has_images : bool
}.

(** The value of [datetime.strptime]. *)
Record datetime : Type := Datetime {
  year : Z; month : Z; day : Z;
  hour : Z; minute : Z; second : Z; microsecond : Z
}.

(** ** Effects

    Every call that leaves the two modelled files is recorded, in order, in
    a trace; what the call returns, or raises, is decided by the
    collaborator, which sees only the outside world [E] (file system, clock,
    camera, plotting backend). *)

Inductive level : Type := INFO | WARNING | ERROR.

Inductive event : Type :=
  | Log (lvl : level) (msg : string)
  | NamedTemporaryFile (suffix : string)
  | SpeakAlert (violation_type : string)
  | CloseFile
  | Now (fmt : string)
  | CaptureViolation (violation_type ts : string)
  | LogViolation (violation_type ts duration : string) (frame : results)
  | DrawTimeline (times : list datetime) (severities : list Z)
      (labels : list string) (student_id path : string)
  | DrawHeatmap (types : list string) (values : list Z) (shades : list Q)
      (student_id path : string)
  | RenderTemplate (template : string) (data : report_data)
  | PathExists (path : string)
  | PdfkitFromString (html output_path wkhtmltopdf : string)
  | WriteFile (path content : string).

Class Collaborators (E : Type) : Type := {
  (* tempfile.NamedTemporaryFile(delete=False, suffix=...) and its close() *)
  named_temporary_file : string → E → result unit * E;
  close_file : E → result unit * E;
  (* alert_system.speak_alert(violation_type) *)
  speak_alert : string → E → result unit * E;
  (* datetime.now().strftime(fmt) *)
  now : string → E → result string * E;
  (* violation_capturer.capture_violation(frame, violation_type, timestamp) *)
  capture_violation : string → string → E → result string * E;
  (* violation_logger.log_violation(violation_type, timestamp, details) *)
  log_violation : string → string → string → results → E → result unit * E;
  (* datetime.strptime(s, fmt) *)
  strptime : string → string → result datetime;
  (* the matplotlib calls from plt.figure to plt.close *)
  draw_timeline : list datetime → list Z → list string → string → string →
                  E → result unit * E;
  draw_heatmap : list string → list Z → list Q → string → string →
                 E → result unit * E;
  (* template_env.get_template(name).render(data) *)
  render_template : string → report_data → E → result string * E;
  (* os.path.join, os.path.abspath, os.path.exists *)
  path_join : string → string → string;
  abspath : string → string;
  path_exists : string → E → bool;
  (* pdfkit.configuration(wkhtmltopdf=p) and pdfkit.from_string(html, out, cfg) *)
  pdfkit_from_string : string → string → string → E → result unit * E;
  (* open(path, 'w', encoding='utf-8') and f.write(content) *)
  write_file : string → string → E → result unit * E
}.

Record world (E : Type) : Type := World {
  trace : list event;
  ext : E
}.
Arguments World {E} trace ext.
Arguments trace {E} w.
Arguments ext {E} w.

(** A statement or expression of the program: it runs in a world and either
    returns or raises, leaving the world it reached. *)
Definition M (E A : Type) : Type := world E → result A * world E.

Section Monad.
Context {E : Type}.

#[global] Instance M_ret : MRet (M E) := λ A a w, (Ok a, w).
#[global] Instance M_bind : MBind (M E) := λ A B k m w,
  match m w with
  | (Ok a, w') => k a w'
  | (Raise e, w') => (Raise e, w')
  end.

(** [try: body  except Exception as e: handler e] *)
Definition try_except {A} (body : M E A) (handler : exn → M E A) : M E A :=
  λ w, match body w with
       | (Ok a, w') => (Ok a, w')
       | (Raise e, w') => handler e w'
       end.

(** Evaluate an expression that may raise but has no effect. *)
Definition pure_result {A} (r : result A) : M E A := λ w, (r, w).

(** Record the call [ev] and let the collaborator answer it. *)
Definition call {A} (ev : event) (f : E → result A * E) : M E A := λ w,
  let '(r, e') := f (ext w) in (r, World (trace w ++ [ev]) e').

(** [self.logger.<lvl>(msg)] *)
Definition log (lvl : level) (msg : string) : M E unit := λ w,
  (Ok tt, World (trace w ++ [Log lvl msg]) (ext w)).

End Monad.

(** ** reporting/report_generator.py *)

Module ReportGenerator.

(** [self.severity_map] *)
Definition severity_map : gmap string Z :=
  <["FACE_DISAPPEARED" := 1]> (
  <["GAZE_AWAY" := 2]> (
  <["MOUTH_MOVING" := 3]> (
  <["MULTIPLE_FACES" := 4]> (
  <["OBJECT_DETECTED" := 5]> (
  <["AUDIO_DETECTED" := 3]> ∅))))).

(** [self.severity_map.get(t, 1)] *)
Definition severity_of (t : string) : Z := default 1 (severity_map !! t).

(** The body of the [for violation in violations] loop. *)
Definition stats_step (s : stats) (v : violation) : stats :=
  {| total := total s;
     by_type := <[vtype v := default 0 (by_type s !! vtype v) + 1]> (by_type s);
     timeline := timeline s ++
       [{| time := timestamp v; type := vtype v; severity := severity_of (vtype v) |}];
     severity_score := severity_score s + severity_of (vtype v);
     average_severity := average_severity s;
     integrity_score := integrity_score s |}.

Definition init_stats (violations : list violation) : stats :=
  {| total := Z.of_nat (length violations);
     by_type := ∅;
     timeline := [];
     severity_score := 0;
     average_severity := None;
     integrity_score := None |}.

(** [stats['severity_score'] / stats['total'] if stats['total'] else 0] *)
Definition average_of (s : stats) : result pynum :=
  if total s =? 0 then Ok (PyInt 0)
  else PyFloat <$> true_div (severity_score s) (total s).

Definition _calculate_stats (violations : list violation) : result stats :=
  let s := fold_left stats_step violations (init_stats violations) in
  avg ← average_of s;
  Ok {| total := total s;
        by_type := by_type s;
        timeline := timeline s;
        severity_score := severity_score s;
        average_severity := Some avg;
        integrity_score := integrity_score s |}.

(** Lines 37-38 of [generate_report]: the statistics with the integrity
    score added. *)
Definition computeStats (violations : list violation) : result stats :=
  s ← _calculate_stats violations;
  Ok {| total := total s;
        by_type := by_type s;
        timeline := timeline s;
        severity_score := severity_score s;
        average_severity := average_severity s;
        integrity_score := Some (Z.max 0 (100 - severity_score s * 5)) |}.

(** The state of a [ReportGenerator] object that the methods read. *)
Record generator : Type := Generator {
  wkhtmltopdf_path : option string;   (* self.config.get('wkhtmltopdf_path') *)
  output_dir : string;
  image_dir : string
}.

(** [counts[k] = counts.get(k, 0) + 1] on a dict kept in insertion order,
    the order in which [counts.items()] lists it. *)
Fixpoint count_up (k : string) (counts : list (string * Z)) : list (string * Z) :=
  match counts with
  | [] => [(k, 0 + 1)]
  | (k', n) :: rest =>
      if decide (k' = k) then (k', n + 1) :: rest else (k', n) :: count_up k rest
  end.

(** [sorted(items, key=lambda x: x[1], reverse=True)]: descending by count,
    items of equal count in their original order. *)
Fixpoint insert_desc (x : string * Z) (l : list (string * Z)) : list (string * Z) :=
  match l with
  | [] => [x]
  | y :: l' => if x.2 <? y.2 then y :: insert_desc x l' else x :: y :: l'
  end.

Definition sorted_desc (items : list (string * Z)) : list (string * Z) :=
  foldr insert_desc [] items.

Section Methods.
Context {E : Type} `{!Collaborators E}.
Variable self : generator.

(** Lines 97-117, the body of the [try] of [_generate_timeline]. *)
Definition timeline_chart (violations : list violation) (student_id : string)
  : M E (option string) :=
  times ← pure_result
     (mapM (λ v, strptime (timestamp v) "%Y%m%d_%H%M%S_%f") violations);
  let severities := (λ v, severity_of (vtype v)) <$> violations in
  let labels := vtype <$> violations in
  let path := path_join (image_dir self) ("timeline_" +:+ student_id +:+ ".png") in
  call (DrawTimeline times severities labels student_id path)
       (draw_timeline times severities labels student_id path);;
  mret (Some path).

Definition _generate_timeline (violations : list violation) (student_id : string)
  : M E (option string) :=
  match violations with
  | [] => mret None
  | _ =>
    try_except (timeline_chart violations student_id)
      (λ e, log ERROR ("Failed to generate timeline: " +:+ str_exn e);;
            mret None)
  end.

(** Lines 126-147, the body of the [try] of [_generate_heatmap]. *)
Definition heatmap_chart (violations : list violation) (student_id : string)
  : M E (option string) :=
  let counts := fold_left (λ c v, count_up (vtype v) c) violations [] in
  match counts with
  | [] => mret None
  | _ =>
    let ranked := sorted_desc counts in
    let types := fst <$> ranked in
    let values := snd <$> ranked in
    let shades := (λ t, inject_Z (severity_of t) / inject_Z 5)%Q <$> types in
    let path := path_join (image_dir self) ("heatmap_" +:+ student_id +:+ ".png") in
    call (DrawHeatmap types values shades student_id path)
         (draw_heatmap types values shades student_id path);;
    mret (Some path)
  end.

Definition _generate_heatmap (violations : list violation) (student_id : string)
  : M E (option string) :=
  match violations with
  | [] => mret None
  | _ =>
    try_except (heatmap_chart violations student_id)
      (λ e, log ERROR ("Failed to generate heatmap: " +:+ str_exn e);;
            mret None)
  end.

(** Lines 36-58: statistics, charts and the rendered markup, with the path
    the document will be written to.  [output_format] is already in lower
    case. *)
Definition compose_document (student : student_info)
    (violations : list violation) (output_format : string) : M E (string * string) :=
  stats ← pure_result (computeStats violations);
  timeline_image ← _generate_timeline violations (st_id student);
  heatmap_image ← _generate_heatmap violations (st_id student);
  generated_at ← call (Now "%Y-%m-%d %H:%M:%S") (now "%Y-%m-%d %H:%M:%S");
  let report_data :=
    {| rd_student := student;
       rd_violations := violations;
       rd_generated_at := generated_at;
       rd_stats := stats;
       rd_timeline_image :=
         if truthy timeline_image then abspath <$> timeline_image else None;
       rd_heatmap_image :=
         if truthy heatmap_image then abspath <$> heatmap_image else None;
       rd_has_images := truthy timeline_image || truthy heatmap_image |} in
  html_content ← call (RenderTemplate "base_report.html" report_data)
                      (render_template "base_report.html" report_data);
  timestamp ← call (Now "%Y%m%d_%H%M%S") (now "%Y%m%d_%H%M%S");
  let filename := "report_" +:+ st_id student +:+ "_" +:+ timestamp in
  let output_path := path_join (output_dir self) (filename +:+ "." +:+ output_format) in
  mret (html_content, output_path).

(** [self.config.get('wkhtmltopdf_path', ...)] *)
Definition pdfkit_path : string :=
  default "C:/Program Files/wkhtmltopdf/bin/wkhtmltopdf.exe" (wkhtmltopdf_path self).

(** Lines 60-71: the document is converted, or its markup written. *)
Definition export_document (html_content output_path output_format : string) : M E unit :=
  if decide (output_format = "pdf") then
    found ← call (PathExists pdfkit_path) (λ x, (Ok (path_exists pdfkit_path x), x));
    (if found : bool then mret tt
     else log WARNING ("wkhtmltopdf not found at " +:+ pdfkit_path));;
    call (PdfkitFromString html_content output_path pdfkit_path)
         (pdfkit_from_string html_content output_path pdfkit_path)
  else
    call (WriteFile output_path html_content) (write_file output_path html_content).

(** The body of the [try] of [generate_report].  [output_format] is the
    argument after [str()], which leaves a string as it is. *)
Definition generate_report_body (student : student_info)
    (violations : list violation) (output_format : string) : M E (option string) :=
  let output_format := lower output_format in
  '(html_content, output_path) ← compose_document student violations output_format;
  export_document html_content output_path output_format;;
  log INFO ("Report generated at: " +:+ output_path);;
  mret (Some (abspath output_path)).

Definition generate_report (student : student_info)
    (violations : list violation) (output_format : string) : M E (option string) :=
  try_except (generate_report_body student violations output_format)
    (λ e, log ERROR ("Failed to generate report: " +:+ str_exn e);;
          mret None).

End Methods.

End ReportGenerator.

(** ** main.py *)

Module Main.

(** The first three items of a [cv2.putText] call: text, origin, colour. *)
Record put_text : Type := PutText {
  text : string;
  org : Z * Z;
  color : Z * Z * Z
}.

Definition status_items (r : results) : list string :=
  [ "Face: " +:+ (if face_present r then "Present" else "Absent");
    "Gaze: " +:+ gaze_direction r;
    "Eyes: " +:+ (if PrimFloat.ltb 0.25 (eye_ratio r) then "Open" else "Closed");
    "Mouth: " +:+ (if mouth_moving r then "Moving" else "Still") ].

Definition alert_items (r : results) : list string :=
  (if multiple_faces r then ["Multiple Faces Detected!"] else []) ++
  (if objects_detected r then ["Suspicious Object Detected!"] else []).

(** The text lines drawn from [y_offset] on, [line_height] apart. *)
Fixpoint put_lines (items : list string) (y_offset : Z) (c : Z * Z * Z) : list put_text :=
  match items with
  | [] => []
  | item :: rest => PutText item (10, y_offset) c :: put_lines rest (y_offset + 30) c
  end.

(** The overlay drawn on a frame of width [frame_width]. *)
Definition display_detection_results (frame_width : Z) (r : results) : list put_text :=
  let y_offset := 30 in
  let status := put_lines (status_items r) y_offset (0, 255, 0) in
  let y_offset := y_offset + 30 * Z.of_nat (length (status_items r)) in
  let alerts := put_lines (alert_items r) y_offset (0, 0, 255) in
  status ++ alerts ++ [PutText (frame_timestamp r) (frame_width - 250, 30) (255, 255, 255)].

(** The [student_info] of [main]. *)
Definition student : student_info :=
  {| st_id := "STUDENT_001";
     st_name := "John Doe";
     st_exam := "Final Examination";
     st_course := "Computer Science 101" |}.

Definition violations_to_check (r : results) : list (string * bool) :=
  [ ("FACE_DISAPPEARED", negb (face_present r));
    ("MULTIPLE_FACES", multiple_faces r);
    ("OBJECT_DETECTED", objects_detected r);
    ("MOUTH_MOVING", mouth_moving r) ].

Section Loop.
Context {E : Type} `{!Collaborators E}.

(** [for violation_type, condition in violations_to_check: ...], the
    [break] ending the loop after the first handled violation. *)
Fixpoint check_violations (r : results) (checks : list (string * bool)) : M E unit :=
  match checks with
  | [] => mret tt
  | (violation_type, condition) :: rest =>
      if condition : bool then
        call (NamedTemporaryFile ".mp3") (named_temporary_file ".mp3");;
        call (SpeakAlert violation_type) (speak_alert violation_type);;
        call CloseFile close_file;;
        timestamp ← call (Now "%Y%m%d_%H%M%S_%f") (now "%Y%m%d_%H%M%S_%f");
        _ ← call (CaptureViolation violation_type timestamp)
                 (capture_violation violation_type timestamp);
        call (LogViolation violation_type timestamp "5+ seconds" r)
             (log_violation violation_type timestamp "5+ seconds" r)
      else check_violations r rest
  end.

Definition handle_violations (r : results) : M E unit :=
  check_violations r (violations_to_check r).

End Loop.

End Main.

(** ** Concrete collaborators

    A machine without display and without [wkhtmltopdf]: plotting and PDF
    conversion raise, every other collaborator answers. *)
Definition headless : Collaborators unit := {|
  named_temporary_file _ x := (Ok tt, x);
  close_file x := (Ok tt, x);
  speak_alert _ x := (Ok tt, x);
  now _ x := (Ok "20240101_120000", x);
  capture_violation t ts x := (Ok ("evidence/" +:+ t +:+ "_" +:+ ts +:+ ".jpg"), x);
  log_violation _ _ _ _ x := (Ok tt, x);
  strptime _ _ := Ok (Datetime 2024 1 1 12 0 0 0);
  draw_timeline _ _ _ _ _ x := (Raise (Error "no display name"), x);
  draw_heatmap _ _ _ _ _ x := (Raise (Error "no display name"), x);
  render_template _ _ x := (Ok "<html></html>", x);
  path_join a b := a +:+ "/" +:+ b;
  abspath p := "/srv/" +:+ p;
  path_exists _ _ := false;
  pdfkit_from_string _ _ _ x := (Raise (Error "No wkhtmltopdf executable found"), x);
  write_file _ _ x := (Ok tt, x)
|}.

(** A violation log of five records. *)
Definition sample_log : list violation :=
  [ Violation "MULTIPLE_FACES" "20240101_120001_000000";
    Violation "MULTIPLE_FACES" "20240101_120002_000000";
    Violation "OBJECT_DETECTED" "20240101_120003_000000";
    Violation "MOUTH_MOVING" "20240101_120004_000000";
    Violation "FACE_DISAPPEARED" "20240101_120005_000000" ].

Definition default_generator : ReportGenerator.generator :=
  {| ReportGenerator.wkhtmltopdf_path := None;
     ReportGenerator.output_dir := "./reports/generated";
     ReportGenerator.image_dir := "./reports/generated/images" |}.

(** ** Vocabulary of the statements *)

(** The timeline entry the loop appends for the record [v]. *)
Definition entry_of (v : violation) : timeline_entry :=
  {| time := timestamp v;
     type := vtype v;
     severity := ReportGenerator.severity_of (vtype v) |}.

Definition sumZ (l : list Z) : Z := foldr Z.add 0 l.

(** The sum of the counts held by a [by_type] dict. *)
Definition sum_counts (m : gmap string Z) : Z :=
  map_fold (λ _ n acc, n + acc) 0 m.

(** The average severity of the records [l]: severity sum over count. *)
Definition average_for (l : list violation) : pynum :=
  if Z.of_nat (length l) =? 0 then PyInt 0
  else PyFloat (inject_Z (sumZ ((λ v, ReportGenerator.severity_of (vtype v)) <$> l)) /
                inject_Z (Z.of_nat (length l)))%Q.

(** The spellings of a format that select the PDF converter. *)
Definition pdf_spellings : list string :=
  [ "pdf"; "pdF"; "pDf"; "pDF"; "Pdf"; "PdF"; "PDf"; "PDF" ].

(** A statement only ever adds to the trace. *)
Definition extends {E A} (m : M E A) : Prop :=
  ∀ w, ∃ new, trace (m w).2 = (trace w ++ new)%list.

(** A statement always returns: no exception leaves it. *)
Definition returns {E A} (m : M E A) : Prop :=
  ∀ w, ∃ a w', m w = (Ok a, w').

(** Whatever the collaborators answer, running the statement makes the
    call [ev]. *)
Definition reaches {E A} (ev : event) (m : M E A) : Prop :=
  ∀ w, ∃ new, trace (m w).2 = (trace w ++ new)%list ∧ ev ∈ new.

(** The six keys of the severity table. *)
Definition known_types : list string :=
  [ "FACE_DISAPPEARED"; "GAZE_AWAY"; "MOUTH_MOVING";
    "MULTIPLE_FACES"; "OBJECT_DETECTED"; "AUDIO_DETECTED" ].

(** The types of the violation records handed to the violation logger in a
    stretch of the trace. *)
Definition logged (evs : list event) : list string :=
  omap (λ ev, match ev with
              | LogViolation t _ _ _ => Some t
              | _ => None
              end) evs.

(** The violation classifier in the words of its contract: fixed priority,
    first match wins. *)
Definition classify (r : results) : option string :=
  if negb (face_present r) then Some "FACE_DISAPPEARED"
  else if multiple_faces r then Some "MULTIPLE_FACES"
  else if objects_detected r then Some "OBJECT_DETECTED"
  else if mouth_moving r then Some "MOUTH_MOVING"
  else None.

(** The number of records of type [t] in a log. *)
Definition occurrences (t : string) (l : list violation) : Z :=
  Z.of_nat (length (filter (λ v, vtype v = t) l)).

(** A dict entry: absent for a count of zero. *)
Definition count_entry (n : Z) : option Z := if n =? 0 then None else Some n.

(** The [counts] dict of [_generate_heatmap] after its loop, and the
    [sorted(...)] list the bars are taken from. *)
Definition heatmap_counts (vs : list violation) : list (string * Z) :=
  fold_left (λ c v, ReportGenerator.count_up (vtype v) c) vs [].

Definition heatmap_bars (vs : list violation) : list (string * Z) :=
  ReportGenerator.sorted_desc (heatmap_counts vs).

(** The argument the colour map gets for the bar of type [t]. *)
Definition shade_of (t : string) : Q :=
  (inject_Z (ReportGenerator.severity_of t) / inject_Z 5)%Q.

(** Every call a statement makes satisfies [P]. *)
Definition emits {E A} (P : event → Prop) (m : M E A) : Prop :=
  ∀ w, ∃ new, trace (m w).2 = (trace w ++ new)%list ∧ Forall P new.

(** The calls that draw a chart. *)
Definition is_chart_call (ev : event) : Prop :=
  match ev with
  | DrawTimeline _ _ _ _ _ | DrawHeatmap _ _ _ _ _ => True
  | _ => False
  end.


(** A clock whose [strptime] accepts only 22-character stamps, on a machine
    where everything else works. *)
Definition strict_clock : Collaborators unit := {|
  named_temporary_file _ x := (Ok tt, x);
  close_file x := (Ok tt, x);
  speak_alert _ x := (Ok tt, x);
  now _ x := (Ok "20240101_120000", x);
  capture_violation t ts x := (Ok ("evidence/" +:+ t +:+ "_" +:+ ts +:+ ".jpg"), x);
  log_violation _ _ _ _ x := (Ok tt, x);
  strptime s _ :=
    if (String.length s =? 22)%nat then Ok (Datetime 2024 1 1 12 0 0 0)
    else Raise (Error "time data does not match format");
  draw_timeline _ _ _ _ _ x := (Ok tt, x);
  draw_heatmap _ _ _ _ _ x := (Ok tt, x);
  render_template _ _ x := (Ok "<html></html>", x);
  path_join a b := a +:+ "/" +:+ b;
  abspath p := "/srv/" +:+ p;
  path_exists _ _ := true;
  pdfkit_from_string _ _ _ x := (Ok tt, x);
  write_file _ _ x := (Ok tt, x)
|}.

(** What a call of the report of an empty log may be: no chart is drawn,
    and the template gets the statistics of the empty log and no image. *)
Definition empty_report_call (ev : event) : Prop :=
  match ev with
  | DrawTimeline _ _ _ _ _ | DrawHeatmap _ _ _ _ _ => False
  | RenderTemplate _ data =>
      rd_has_images data = false ∧
      rd_timeline_image data = None ∧ rd_heatmap_image data = None ∧
      rd_stats data = Stats 0 ∅ [] 0 (Some (PyInt 0)) (Some 100)
  | _ => True
  end.

(** What a call of the report of the log [vs] for [student] may be: the
    template is rendered only with the data of this report. *)
Definition report_call (student : student_info) (vs : list violation)
    (ev : event) : Prop :=
  match ev with
  | RenderTemplate template data =>
      template = "base_report.html" ∧
      rd_student data = student ∧ rd_violations data = vs ∧
      ReportGenerator.computeStats vs = Ok (rd_stats data) ∧
      (rd_has_images data = true ↔
       is_Some (rd_timeline_image data) ∨ is_Some (rd_heatmap_image data))
  | _ => True
  end.

(** * Properties *)

(** ** The eye status of the overlay *)

Lemma eyes_item (r : results) :
  Main.status_items r !! 2%nat =
  Some (if PrimFloat.ltb 0.25 (eye_ratio r) then "Eyes: Open" else "Eyes: Closed").
Proof. unfold Main.status_items. simpl. by destruct (PrimFloat.ltb _ _). Qed.

(** C5, as the claim states it, fails: a frame whose eye ratio is exactly
    0.25 is not shown as open. *)
Lemma eyes_at_threshold_not_open :
  ¬ (∀ r : results, eye_ratio r = 0.25%float →
       Main.status_items r !! 2%nat = Some "Eyes: Open").
Proof.
  intros H.
  specialize (H (Results true "Center" 0.25%float false false false "") eq_refl).
  vm_compute in H. discriminate H.
Qed.

(** C5, amended: the eye status is "Open" exactly when the eye ratio is
    strictly greater than 0.25; a ratio equal to 0.25 is shown as
    "Closed". *)
Theorem eyes_open_strict :
  (∀ r : results,
     Main.status_items r !! 2%nat = Some "Eyes: Open" ↔
     PrimFloat.ltb 0.25 (eye_ratio r) = true) ∧
  (∀ fp gaze mm mf od ts,
     Main.status_items (Results fp gaze 0.25 mm mf od ts) !! 2%nat =
     Some "Eyes: Closed").
Proof.
  split.
  - intros r. rewrite eyes_item. destruct (PrimFloat.ltb _ _); split; congruence.
  - intros. by rewrite eyes_item.
Qed.

(** ** The statistics loop *)

Import ReportGenerator.

(** What the dict update of the loop does to the sum of the counts. *)
Lemma sum_counts_bump (k : string) (m : gmap string Z) :
  sum_counts (<[k := default 0 (m !! k) + 1]> m) = sum_counts m + 1.
Proof.
  unfold sum_counts.
  assert (Hcomm : ∀ z1 z2 y : Z, z1 + (z2 + y) = z2 + (z1 + y)) by (intros; lia).
  destruct (m !! k) as [n|] eqn:Hk; simpl.
  - rewrite <- (insert_delete_eq m k (n + 1)).
    rewrite map_fold_insert_L; [|intros; apply Hcomm|apply lookup_delete_eq].
    rewrite <- (insert_delete_id m k n Hk) at 2.
    rewrite map_fold_insert_L; [|intros; apply Hcomm|apply lookup_delete_eq].
    lia.
  - rewrite map_fold_insert_L; [lia|intros; apply Hcomm|done].
Qed.

(** The state of the loop after the records [l], from any state [s]. *)
Lemma loop_total l s : total (fold_left stats_step l s) = total s.
Proof. revert s. induction l as [|v l IH]; intros s; simpl; [done|by rewrite IH]. Qed.

Lemma loop_timeline l s :
  timeline (fold_left stats_step l s) = (timeline s ++ (entry_of <$> l))%list.
Proof.
  revert s. induction l as [|v l IH]; intros s.
  - cbn. by rewrite app_nil_r.
  - cbn [fold_left]. rewrite IH. cbn [stats_step timeline fmap list_fmap].
    by rewrite <- app_assoc.
Qed.

Lemma loop_severity l s :
  severity_score (fold_left stats_step l s) =
  severity_score s + sumZ ((λ v, severity_of (vtype v)) <$> l).
Proof.
  revert s. induction l as [|v l IH]; intros s.
  - cbn. lia.
  - cbn [fold_left]. rewrite IH.
    cbn [stats_step severity_score fmap list_fmap]. unfold sumZ. cbn [foldr]. lia.
Qed.

Lemma loop_sum_counts l s :
  sum_counts (by_type (fold_left stats_step l s)) =
  sum_counts (by_type s) + Z.of_nat (length l).
Proof.
  revert s. induction l as [|v l IH]; intros s.
  - simpl. lia.
  - cbn [fold_left]. rewrite IH. cbn [stats_step by_type].
    rewrite sum_counts_bump. cbn [length]. lia.
Qed.

Lemma loop_keeps_optional_keys l s :
  average_severity (fold_left stats_step l s) = average_severity s ∧
  integrity_score (fold_left stats_step l s) = integrity_score s.
Proof.
  revert s. induction l as [|v l IH]; intros s; simpl; [done|].
  destruct (IH (stats_step s v)) as [-> ->]. done.
Qed.

(** The guard of the average: the division is reached only with a divisor
    that is not zero. *)
Lemma average_of_ok (s : stats) :
  average_of s =
  Ok (if total s =? 0 then PyInt 0
      else PyFloat (inject_Z (severity_score s) / inject_Z (total s))%Q).
Proof.
  unfold average_of, true_div. by destruct (total s =? 0).
Qed.

Lemma calculate_stats_ok (l : list violation) :
  _calculate_stats l =
  Ok (Stats (Z.of_nat (length l))
            (by_type (fold_left stats_step l (init_stats l)))
            (entry_of <$> l)
            (sumZ ((λ v, severity_of (vtype v)) <$> l))
            (Some (average_for l))
            None).
Proof.
  unfold _calculate_stats. rewrite average_of_ok. cbn [mbind result_bind].
  rewrite loop_total, loop_timeline, loop_severity.
  destruct (loop_keeps_optional_keys l (init_stats l)) as [_ ->].
  cbn [init_stats total timeline severity_score integrity_score app].
  by rewrite !Z.add_0_l.
Qed.

Lemma computeStats_ok (l : list violation) :
  computeStats l =
  Ok (Stats (Z.of_nat (length l))
            (by_type (fold_left stats_step l (init_stats l)))
            (entry_of <$> l)
            (sumZ ((λ v, severity_of (vtype v)) <$> l))
            (Some (average_for l))
            (Some (Z.max 0 (100 - sumZ ((λ v, severity_of (vtype v)) <$> l) * 5)))).
Proof. unfold computeStats. by rewrite calculate_stats_ok. Qed.

(** ** The severity table *)

Lemma severity_of_bounds (t : string) : 1 ≤ severity_of t ≤ 5.
Proof.
  unfold severity_of, severity_map.
  repeat (rewrite lookup_insert; case_decide; [simpl; lia|]).
  rewrite lookup_empty. simpl. lia.
Qed.

Lemma severity_of_unknown (t : string) : t ∉ known_types → severity_of t = 1.
Proof.
  unfold known_types. intros H.
  repeat (apply not_elem_of_cons in H as [? H]).
  unfold severity_of, severity_map.
  rewrite !lookup_insert_ne by done. by rewrite lookup_empty.
Qed.

Lemma sumZ_app (a b : list Z) : sumZ (a ++ b)%list = sumZ a + sumZ b.
Proof. induction a as [|x a IH]; cbn; [done|]. unfold sumZ in *. cbn. lia. Qed.

Lemma sumZ_permutation (a b : list Z) : a ≡ₚ b → sumZ a = sumZ b.
Proof.
  induction 1 as [|x a b _ IH|x y a|a b c _ IH1 _ IH2]; unfold sumZ in *; cbn;
    [done|lia|lia|congruence].
Qed.

(** ** Order independence of the counts *)

Lemma loop_by_type_ext l s1 s2 :
  by_type s1 = by_type s2 →
  by_type (fold_left stats_step l s1) = by_type (fold_left stats_step l s2).
Proof.
  revert s1 s2. induction l as [|v l IH]; intros s1 s2 Heq; cbn [fold_left]; [done|].
  apply IH. cbn [stats_step by_type]. by rewrite Heq.
Qed.

Lemma stats_step_by_type_comm s x y :
  by_type (stats_step (stats_step s x) y) = by_type (stats_step (stats_step s y) x).
Proof.
  cbn [stats_step by_type]. apply map_eq. intros k.
  destruct (decide (vtype x = vtype y)) as [Heq|Hne].
  - by rewrite Heq.
  - rewrite (lookup_insert_ne _ (vtype x) (vtype y)) by done.
    rewrite (lookup_insert_ne _ (vtype y) (vtype x)) by done.
    rewrite !lookup_insert. repeat case_decide; congruence.
Qed.

Lemma loop_by_type_permutation l l' :
  l ≡ₚ l' → ∀ s,
  by_type (fold_left stats_step l s) = by_type (fold_left stats_step l' s).
Proof.
  induction 1 as [|x l l' _ IH|x y l|l1 l2 l3 _ IH1 _ IH2]; intros s; cbn [fold_left].
  - done.
  - apply IH.
  - apply loop_by_type_ext, stats_step_by_type_comm.
  - by rewrite IH1.
Qed.

(** ** Statistics: the claims *)

(** The unguarded division would raise on the empty log. *)
Example true_div_by_zero : true_div 0 0 = Raise ZeroDivisionError.
Proof. reflexivity. Qed.

(** C2: on the empty sequence of records [computeStats] returns, without
    raising [ZeroDivisionError], the statistics with total 0, severity
    score 0, average severity 0 and integrity score 100. *)
Theorem computeStats_empty :
  computeStats [] = Ok (Stats 0 ∅ [] 0 (Some (PyInt 0)) (Some 100)).
Proof. reflexivity. Qed.

(** C3: for every sequence of records the integrity score is
    [max(0, 100 - severity_score * 5)]; it is never negative, and appending
    one more record of any type never increases it. *)
Theorem integrity_score_monotone (l : list violation) (v : violation) :
  ∃ s s' a b,
    computeStats l = Ok s ∧ computeStats (l ++ [v]) = Ok s' ∧
    integrity_score s = Some a ∧ integrity_score s' = Some b ∧
    a = Z.max 0 (100 - severity_score s * 5) ∧
    b = Z.max 0 (100 - severity_score s' * 5) ∧
    b ≤ a ∧ 0 ≤ a ∧ 0 ≤ b.
Proof.
  do 4 eexists. rewrite !computeStats_ok.
  repeat split; cbn [severity_score]; try lia.
  rewrite fmap_app, sumZ_app. unfold sumZ at 2. cbn.
  pose proof (severity_of_bounds (vtype v)). lia.
Qed.

(** C4: on a permutation of the records [computeStats] yields the same
    counts by type and the same severity score, while the timeline lists
    the records in the order of the input: its i-th entry is the entry of
    the i-th record. *)
Theorem computeStats_permutation (l l' : list violation) :
  l ≡ₚ l' →
  ∃ s s',
    computeStats l = Ok s ∧ computeStats l' = Ok s' ∧
    by_type s' = by_type s ∧
    severity_score s' = severity_score s ∧
    (∀ i : nat, timeline s !! i = entry_of <$> l !! i).
Proof.
  intros Hperm. do 2 eexists. rewrite !computeStats_ok.
  repeat split; cbn [by_type severity_score timeline].
  - rewrite (loop_by_type_permutation l l' Hperm). apply loop_by_type_ext. done.
  - apply sumZ_permutation. by rewrite Hperm.
  - intros i. apply list_lookup_fmap.
Qed.

Lemma computeStats_permutation_witness :
  ∃ s s',
    computeStats [Violation "MOUTH_MOVING" "t0"; Violation "GAZE_AWAY" "t1"] = Ok s ∧
    computeStats [Violation "GAZE_AWAY" "t1"; Violation "MOUTH_MOVING" "t0"] = Ok s' ∧
    by_type s' = by_type s ∧
    severity_score s' = severity_score s ∧
    (∀ i : nat, timeline s !! i =
       entry_of <$> [Violation "MOUTH_MOVING" "t0"; Violation "GAZE_AWAY" "t1"] !! i).
Proof.
  apply (computeStats_permutation
           [Violation "MOUTH_MOVING" "t0"; Violation "GAZE_AWAY" "t1"]
           [Violation "GAZE_AWAY" "t1"; Violation "MOUTH_MOVING" "t0"]).
  apply perm_swap.
Defined.

(** C7: a record whose type is none of the six known types gets severity 1
    in its timeline entry and adds 1 to the severity score, and
    [computeStats] returns without raising. *)
Theorem unknown_type_weight_one (l1 l2 : list violation) (v : violation) :
  vtype v ∉ known_types →
  ∃ s s0,
    computeStats (l1 ++ v :: l2) = Ok s ∧
    computeStats (l1 ++ l2) = Ok s0 ∧
    timeline s !! length l1 = Some (TimelineEntry (timestamp v) (vtype v) 1) ∧
    severity_score s = severity_score s0 + 1.
Proof.
  intros Hv. do 2 eexists. rewrite !computeStats_ok.
  repeat split; cbn [timeline severity_score].
  - rewrite list_lookup_fmap, list_lookup_middle by done.
    cbn. unfold entry_of. by rewrite (severity_of_unknown _ Hv).
  - rewrite !fmap_app, !sumZ_app, fmap_cons.
    change (sumZ (?x :: ?t)) with (x + sumZ t).
    rewrite (severity_of_unknown _ Hv). lia.
Qed.

Lemma unknown_type_weight_one_witness :
  ("PHONE_CALL" ∉ known_types) ∧
  ∃ s s0,
    computeStats ([Violation "MOUTH_MOVING" "t0"] ++
                  Violation "PHONE_CALL" "t1" :: [Violation "GAZE_AWAY" "t2"]) = Ok s ∧
    computeStats ([Violation "MOUTH_MOVING" "t0"] ++ [Violation "GAZE_AWAY" "t2"]) = Ok s0 ∧
    timeline s !! 1%nat = Some (TimelineEntry "t1" "PHONE_CALL" 1) ∧
    severity_score s = severity_score s0 + 1.
Proof.
  assert (H : "PHONE_CALL" ∉ known_types)
    by (apply (bool_decide_unpack _); vm_compute; exact I).
  split; [exact H|].
  exact (unknown_type_weight_one
           [Violation "MOUTH_MOVING" "t0"] [Violation "GAZE_AWAY" "t2"]
           (Violation "PHONE_CALL" "t1") H).
Defined.

(** C9: for two MULTIPLE_FACES, one OBJECT_DETECTED, one MOUTH_MOVING and
    one FACE_DISAPPEARED record, whatever their timestamps, the severity
    score is 17, the average severity is 3.4 and the integrity score is 15,
    with the weights 1, 3, 4 and 5 of the severity table. *)
Theorem five_records_example (t1 t2 t3 t4 t5 : string) :
  severity_of "FACE_DISAPPEARED" = 1 ∧ severity_of "MOUTH_MOVING" = 3 ∧
  severity_of "MULTIPLE_FACES" = 4 ∧ severity_of "OBJECT_DETECTED" = 5 ∧
  ∃ s q,
    computeStats [ Violation "MULTIPLE_FACES" t1; Violation "MULTIPLE_FACES" t2;
                   Violation "OBJECT_DETECTED" t3; Violation "MOUTH_MOVING" t4;
                   Violation "FACE_DISAPPEARED" t5 ] = Ok s ∧
    total s = 5 ∧
    severity_score s = 17 ∧
    average_severity s = Some (PyFloat q) ∧ (q == 3.4)%Q ∧ to_double q = 3.4%float ∧
    integrity_score s = Some 15.
Proof.
  repeat split; try reflexivity.
  eexists. exists (17 # 5)%Q. rewrite computeStats_ok.
  repeat split; reflexivity.
Qed.

(** C10: the statistics [_calculate_stats] returns are consistent: the
    total is the length of the timeline and the sum of the counts by type,
    and the severity score is the sum of the severities of the timeline
    entries. *)
Theorem calculate_stats_consistent (l : list violation) :
  ∃ s,
    _calculate_stats l = Ok s ∧
    total s = Z.of_nat (length (timeline s)) ∧
    total s = sum_counts (by_type s) ∧
    severity_score s = sumZ (severity <$> timeline s).
Proof.
  eexists. rewrite calculate_stats_ok.
  repeat split; cbn [total timeline by_type severity_score].
  - by rewrite length_fmap.
  - rewrite loop_sum_counts. cbn [init_stats by_type].
    unfold sum_counts. rewrite map_fold_empty. lia.
  - by rewrite <- list_fmap_compose.
Qed.

(** ** Running statements *)

Section Running.
Context {E : Type}.

Lemma run_bind {A B} (m : M E A) (k : A → M E B) (w : world E) :
  (m ≫= k) w =
  match m w with
  | (Ok a, w') => k a w'
  | (Raise e, w') => (Raise e, w')
  end.
Proof. reflexivity. Qed.

Lemma run_call {A} (ev : event) (f : E → result A * E) (w : world E) :
  call ev f w = ((f (ext w)).1, World (trace w ++ [ev]) (f (ext w)).2).
Proof. unfold call. by destruct (f (ext w)). Qed.

Lemma run_call_bind {A B} ev (f : E → result A * E) (k : A → M E B) (w : world E) :
  (call ev f ≫= k) w =
  match f (ext w) with
  | (Ok a, x) => k a (World (trace w ++ [ev]) x)
  | (Raise e, x) => (Raise e, World (trace w ++ [ev]) x)
  end.
Proof. rewrite run_bind, run_call. by destruct (f (ext w)) as [[?|?] ?]. Qed.

Lemma try_except_returns {A} (body : M E A) handler (w w' : world E) a :
  body w = (Ok a, w') → try_except body handler w = (Ok a, w').
Proof. unfold try_except. by intros ->. Qed.

Lemma try_except_catches {A} (body : M E A) handler (w w' : world E) e :
  body w = (Raise e, w') → try_except body handler w = handler e w'.
Proof. unfold try_except. by intros ->. Qed.

Lemma extends_ret {A} (a : A) : extends (mret a : M E A).
Proof. intros w. exists []. cbn. by rewrite app_nil_r. Qed.

Lemma extends_pure_result {A} (r : result A) : extends (pure_result r : M E A).
Proof. intros w. exists []. cbn. by rewrite app_nil_r. Qed.

Lemma extends_call {A} ev (f : E → result A * E) : extends (call ev f).
Proof. intros w. exists [ev]. by rewrite run_call. Qed.

Lemma extends_log lvl msg : extends (log lvl msg : M E unit).
Proof. intros w. by exists [Log lvl msg]. Qed.

Lemma extends_bind {A B} (m : M E A) (k : A → M E B) :
  extends m → (∀ a, extends (k a)) → extends (m ≫= k).
Proof.
  intros Hm Hk w. rewrite run_bind.
  destruct (Hm w) as [new1 H1]. destruct (m w) as [[a|e] w1]; cbn in H1.
  - destruct (Hk a w1) as [new2 H2]. exists (new1 ++ new2)%list.
    by rewrite H2, H1, app_assoc.
  - by exists new1.
Qed.

Lemma extends_try_except {A} (body : M E A) handler :
  extends body → (∀ e, extends (handler e)) → extends (try_except body handler).
Proof.
  intros Hb Hh w. unfold try_except.
  destruct (Hb w) as [new1 H1]. destruct (body w) as [[a|e] w1]; cbn in H1.
  - by exists new1.
  - destruct (Hh e w1) as [new2 H2]. exists (new1 ++ new2)%list.
    by rewrite H2, H1, app_assoc.
Qed.

Lemma returns_ret {A} (a : A) : returns (mret a : M E A).
Proof. intros w. by exists a, w. Qed.

Lemma returns_log lvl msg : returns (log lvl msg : M E unit).
Proof. intros w. by eexists _, _. Qed.

Lemma returns_bind {A B} (m : M E A) (k : A → M E B) :
  returns m → (∀ a, returns (k a)) → returns (m ≫= k).
Proof.
  intros Hm Hk w. rewrite run_bind. destruct (Hm w) as (a & w1 & ->). apply Hk.
Qed.

Lemma returns_try_except {A} (body : M E A) handler :
  (∀ e, returns (handler e)) → returns (try_except body handler).
Proof.
  intros Hh w. unfold try_except. destruct (body w) as [[a|e] w1]; [|apply Hh].
  by exists a, w1.
Qed.

Lemma reaches_call {A} ev (f : E → result A * E) : reaches ev (call ev f).
Proof. intros w. exists [ev]. rewrite run_call. split; [done|]. apply list_elem_of_singleton. done. Qed.

Lemma reaches_bind_l {A B} ev (m : M E A) (k : A → M E B) :
  reaches ev m → (∀ a, extends (k a)) → reaches ev (m ≫= k).
Proof.
  intros Hm Hk w. rewrite run_bind.
  destruct (Hm w) as (new1 & H1 & Hin). destruct (m w) as [[a|e] w1]; cbn in H1.
  - destruct (Hk a w1) as [new2 H2]. exists (new1 ++ new2)%list.
    rewrite H2, H1, app_assoc. split; [done|]. apply elem_of_app. by left.
  - by exists new1.
Qed.

Lemma reaches_bind_r {A B} ev (m : M E A) (k : A → M E B) :
  returns m → extends m → (∀ a, reaches ev (k a)) → reaches ev (m ≫= k).
Proof.
  intros Hr Hm Hk w. rewrite run_bind.
  destruct (Hm w) as [new1 H1]. destruct (Hr w) as (a & w1 & Hrun).
  rewrite Hrun in H1 |- *. cbn in H1.
  destruct (Hk a w1) as (new2 & H2 & Hin). exists (new1 ++ new2)%list.
  rewrite H2, H1, app_assoc. split; [done|]. apply elem_of_app. by right.
Qed.

Lemma reaches_try_except {A} ev (body : M E A) handler :
  reaches ev body → (∀ e, extends (handler e)) → reaches ev (try_except body handler).
Proof.
  intros Hb Hh w. unfold try_except.
  destruct (Hb w) as (new1 & H1 & Hin). destruct (body w) as [[a|e] w1]; cbn in H1.
  - by exists new1.
  - destruct (Hh e w1) as [new2 H2]. exists (new1 ++ new2)%list.
    rewrite H2, H1, app_assoc. split; [done|]. apply elem_of_app. by left.
Qed.

End Running.

Create HintDb trace discriminated.
#[global] Hint Resolve extends_ret extends_pure_result extends_call extends_log
  returns_ret returns_log reaches_call : trace.
#[global] Hint Extern 2 (extends (_ ≫= _)) => apply extends_bind; [|intros ?] : trace.
#[global] Hint Extern 2 (extends (try_except _ _)) =>
  apply extends_try_except; [|intros ?] : trace.
#[global] Hint Extern 2 (returns (_ ≫= _)) => apply returns_bind; [|intros ?] : trace.
#[global] Hint Extern 2 (returns (try_except _ _)) =>
  apply returns_try_except; intros ? : trace.

(** Run the next collaborator call of the goal, in both outcomes. *)
Ltac step_call :=
  rewrite run_call_bind; cbn [ext trace];
  match goal with
  | |- context [match ?c with (_, _) => _ end] => destruct c as [[?|?] ?]
  end.

(** ** The frame loop *)

Section FrameLoop.
Context {E : Type} `{!Collaborators E}.

(** The first check whose condition holds, if any. *)
Lemma classify_first_true (r : results) :
  classify r = fst <$> find (λ c : string * bool, c.2) (Main.violations_to_check r).
Proof.
  unfold classify, Main.violations_to_check.
  by destruct (face_present r), (multiple_faces r), (objects_detected r),
    (mouth_moving r).
Qed.

Lemma check_violations_logged (r : results) (checks : list (string * bool))
    (w w' : world E) (res : result unit) :
  Main.check_violations r checks w = (res, w') →
  ∃ new,
    trace w' = (trace w ++ new)%list ∧
    (logged new = option_list (fst <$> find (λ c : string * bool, c.2) checks) ∨
     (∃ e, res = Raise e ∧ logged new = [])).
Proof.
  induction checks as [|[violation_type condition] rest IH].
  - intros [= <- <-]. exists []. rewrite app_nil_r. auto.
  - cbn [Main.check_violations find]. destruct condition; cbn [snd]; [|apply IH].
    clear IH.
    assert (Hend : ∀ (res0 : result unit) (evs : list event) x,
              (logged evs = [violation_type] ∨ ∃ e, res0 = Raise e ∧ logged evs = []) →
              (res0, World (trace w ++ evs) x) = (res, w') →
              ∃ new, trace w' = (trace w ++ new)%list ∧
                (logged new = [violation_type] ∨ ∃ e, res = Raise e ∧ logged new = [])).
    { intros res0 evs x Hl [= <- <-]. by exists evs. }
    do 5 (step_call; rewrite <- ?app_assoc; [|apply Hend; cbn; eauto]).
    rewrite run_call. cbn [ext trace]. rewrite <- ?app_assoc.
    apply Hend. cbn. destruct (log_violation _ _ _ _ _) as [[[]|?] ?]; cbn; eauto.
Qed.

(** C1: in one frame the loop hands at most one violation record to the
    logger, the one of the first check that holds in the order
    FACE_DISAPPEARED, MULTIPLE_FACES, OBJECT_DETECTED, MOUTH_MOVING (none at
    all only if a collaborator raised before the record was logged); a frame
    without a face and with several faces reported is never logged as
    MULTIPLE_FACES and, when the loop returns, is logged as
    FACE_DISAPPEARED. *)
Theorem one_violation_per_frame (r : results) (w : world E) :
  ∃ new,
    trace (Main.handle_violations r w).2 = (trace w ++ new)%list ∧
    (length (logged new) ≤ 1)%nat ∧
    (logged new = option_list (classify r) ∨
     (∃ e, (Main.handle_violations r w).1 = Raise e ∧ logged new = [])) ∧
    (face_present r = false → multiple_faces r = true →
     ("MULTIPLE_FACES" ∉ logged new) ∧
     ((Main.handle_violations r w).1 = Ok tt → logged new = ["FACE_DISAPPEARED"])).
Proof.
  unfold Main.handle_violations.
  destruct (Main.check_violations r (Main.violations_to_check r) w) as [res w'] eqn:Hrun.
  destruct (check_violations_logged _ _ _ _ _ Hrun) as (new & Htrace & Hnew).
  rewrite <- classify_first_true in Hnew. cbn [fst snd].
  exists new. split; [done|]. split; [|split; [done|]].
  - destruct Hnew as [->|(_ & _ & ->)]; [|cbn; lia].
    destruct (classify r); cbn; lia.
  - intros Hface Hmulti.
    assert (Hpick : classify r = Some "FACE_DISAPPEARED")
      by (unfold classify; by rewrite Hface).
    rewrite Hpick in Hnew. cbn in Hnew. split.
    + destruct Hnew as [->|(_ & _ & ->)]; [|apply not_elem_of_nil].
      by intros [?|[]%elem_of_nil]%elem_of_cons.
    + intros ->. destruct Hnew as [->|(e & ? & _)]; done.
Qed.

End FrameLoop.

Lemma one_violation_per_frame_witness :
  ∃ new,
    trace (@Main.handle_violations unit headless
             (Results false "Center" 0.3 false true false "2024-01-01 12:00:00")
             (World [] tt)).2 = new ∧
    ("MULTIPLE_FACES" ∉ logged new) ∧
    logged new = ["FACE_DISAPPEARED"].
Proof.
  destruct (@one_violation_per_frame unit headless
              (Results false "Center" 0.3 false true false "2024-01-01 12:00:00")
              (World [] tt)) as (new & Htrace & _ & _ & Hpriority).
  exists new. split; [exact Htrace|].
  destruct (Hpriority eq_refl eq_refl) as [Hnot Honly].
  split; [exact Hnot|]. apply Honly. reflexivity.
Defined.

(** ** The format argument *)

Lemma lower_char_p c : lower_char c = "p"%char → c = "p"%char ∨ c = "P"%char.
Proof.
  destruct c as [[] [] [] [] [] [] [] []]; vm_compute; intros H;
    try discriminate H; auto.
Qed.

Lemma lower_char_d c : lower_char c = "d"%char → c = "d"%char ∨ c = "D"%char.
Proof.
  destruct c as [[] [] [] [] [] [] [] []]; vm_compute; intros H;
    try discriminate H; auto.
Qed.

Lemma lower_char_f c : lower_char c = "f"%char → c = "f"%char ∨ c = "F"%char.
Proof.
  destruct c as [[] [] [] [] [] [] [] []]; vm_compute; intros H;
    try discriminate H; auto.
Qed.

(** The comparison with ['pdf'] ignores case, and nothing else. *)
Lemma lower_pdf (fmt : string) : lower fmt = "pdf" ↔ fmt ∈ pdf_spellings.
Proof.
  split.
  - destruct fmt as [|c1 [|c2 [|c3 [|c4 ?]]]]; cbn [lower]; intros H;
      try discriminate H.
    injection H as H1 H2 H3.
    apply lower_char_p in H1. apply lower_char_d in H2. apply lower_char_f in H3.
    unfold pdf_spellings.
    destruct H1 as [-> | ->], H2 as [-> | ->], H3 as [-> | ->];
      apply (bool_decide_unpack _); vm_compute; exact I.
  - unfold pdf_spellings. intros H.
    repeat (apply elem_of_cons in H as [-> | H]; [reflexivity|]).
    by apply elem_of_nil in H.
Qed.

(** ** The report *)

Section Report.
Context {E : Type} `{!Collaborators E} (self : generator).

Lemma generate_timeline_returns vs sid : returns (_generate_timeline self vs sid).
Proof. unfold _generate_timeline. destruct vs; auto with trace. Qed.

Lemma generate_heatmap_returns vs sid : returns (_generate_heatmap self vs sid).
Proof. unfold _generate_heatmap. destruct vs; auto with trace. Qed.

Lemma generate_timeline_extends vs sid : extends (_generate_timeline self vs sid).
Proof.
  unfold _generate_timeline, timeline_chart. destruct vs; auto 6 with trace.
Qed.

Lemma generate_heatmap_extends vs sid : extends (_generate_heatmap self vs sid).
Proof.
  unfold _generate_heatmap, heatmap_chart. destruct vs; [auto with trace|].
  apply extends_try_except; [|auto with trace].
  destruct (fold_left _ _ _); auto 6 with trace.
Qed.

Lemma export_document_extends html path fmt :
  extends (export_document self html path fmt).
Proof.
  unfold export_document. case_decide; [|auto with trace].
  apply extends_bind; [auto with trace|]. intros [|]; auto 6 with trace.
Qed.

(** A chart that fails leaves no image, and its cause in the log. *)
Lemma timeline_failure_caught vs sid (w w' : world E) e :
  vs ≠ [] →
  timeline_chart self vs sid w = (Raise e, w') →
  _generate_timeline self vs sid w =
    (Ok None,
     World (trace w' ++ [Log ERROR ("Failed to generate timeline: " +:+ str_exn e)])
           (ext w')).
Proof.
  intros Hvs Hrun. unfold _generate_timeline. destruct vs; [done|].
  by rewrite (try_except_catches _ _ _ _ _ Hrun).
Qed.

Lemma heatmap_failure_caught vs sid (w w' : world E) e :
  vs ≠ [] →
  heatmap_chart self vs sid w = (Raise e, w') →
  _generate_heatmap self vs sid w =
    (Ok None,
     World (trace w' ++ [Log ERROR ("Failed to generate heatmap: " +:+ str_exn e)])
           (ext w')).
Proof.
  intros Hvs Hrun. unfold _generate_heatmap. destruct vs; [done|].
  by rewrite (try_except_catches _ _ _ _ _ Hrun).
Qed.

Lemma generate_report_returns student vs fmt :
  returns (generate_report self student vs fmt).
Proof. unfold generate_report. auto with trace. Qed.

(** The step after the two charts is always run. *)
Lemma generate_report_reaches_render student vs fmt :
  reaches (Now "%Y-%m-%d %H:%M:%S") (generate_report self student vs fmt).
Proof.
  unfold generate_report. apply reaches_try_except; [|auto with trace].
  unfold generate_report_body. apply reaches_bind_l.
  - unfold compose_document. rewrite computeStats_ok.
    apply reaches_bind_r; [by intros w; eexists _, _|auto with trace|]. intros stats.
    apply reaches_bind_r;
      [apply generate_timeline_returns|apply generate_timeline_extends|].
    intros timeline_image.
    apply reaches_bind_r;
      [apply generate_heatmap_returns|apply generate_heatmap_extends|].
    intros heatmap_image.
    apply reaches_bind_l; [apply reaches_call|]. auto 6 with trace.
  - intros [html path]. apply extends_bind; [apply export_document_extends|].
    auto with trace.
Qed.

(** The calls of the export step. *)
Lemma export_document_run html path fmt (w1 : world E) :
  ∃ warn res x,
    export_document self html path fmt w1 =
      (res,
       World (trace w1 ++
              (if decide (fmt = "pdf")
               then PathExists (pdfkit_path self) :: warn ++
                    [PdfkitFromString html path (pdfkit_path self)]
               else [WriteFile path html])) x) ∧
    (∀ ev, ev ∈ warn → ∃ msg, ev = Log WARNING msg).
Proof.
  unfold export_document. case_decide.
  - rewrite run_call_bind. cbn [ext trace].
    destruct (path_exists (pdfkit_path self) (ext w1)).
    + exists []. rewrite run_bind. cbn [mret M_ret]. rewrite run_call.
      cbn [ext trace]. rewrite <- app_assoc. eexists _, _.
      split; [reflexivity|]. by intros ? ?%elem_of_nil.
    + eexists [_]. rewrite run_bind. cbn [log]. rewrite run_call.
      cbn [ext trace]. rewrite <- !app_assoc. eexists _, _.
      split; [reflexivity|]. intros ? ->%list_elem_of_singleton. eauto.
  - exists []. rewrite run_call. eexists _, _.
    split; [reflexivity|]. by intros ? ?%elem_of_nil.
Qed.

(** C6: the format argument selects the export, compared without regard to
    case: once the document is composed, a format that lower-cases to
    ['pdf'] (one of its eight spellings) sends the markup to the PDF
    converter, and any other format writes the markup itself to the output
    path; the only other calls are to the logger. *)
Theorem export_selected_by_format student vs (fmt html path : string) (w w1 : world E) :
  compose_document self student vs (lower fmt) w = (Ok (html, path), w1) →
  (lower fmt = "pdf" ↔ fmt ∈ pdf_spellings) ∧
  ∃ warn last,
    trace (generate_report self student vs fmt w).2 =
      (trace w1 ++
       (if decide (lower fmt = "pdf")
        then PathExists (pdfkit_path self) :: warn ++
             [PdfkitFromString html path (pdfkit_path self)]
        else [WriteFile path html]) ++ [last])%list ∧
    (∀ ev, ev ∈ warn → ∃ msg, ev = Log WARNING msg) ∧
    (∃ lvl msg, last = Log lvl msg).
Proof.
  intros Hcompose. split; [apply lower_pdf|].
  destruct (export_document_run html path (lower fmt) w1)
    as (warn & res & x & Hexport & Hwarn).
  exists warn.
  unfold generate_report, try_except, generate_report_body.
  rewrite run_bind, Hcompose, run_bind, Hexport.
  destruct res as [[]|e]; eexists; rewrite run_bind;
    cbn [log mret M_ret fst snd trace ext]; rewrite <- app_assoc; eauto 6.
Qed.

(** C8: when the conversion of the composed document raises,
    [generate_report] logs the cause and returns [None]; it never raises.
    A chart whose generation raises is caught in its own method, which logs
    the cause and returns [None], so that neither chart method ever raises
    and the report always goes on to the step after the charts. *)
Theorem failures_are_contained student vs (fmt sid : string) :
  (∀ html path (w w1 w2 : world E) e,
     compose_document self student vs (lower fmt) w = (Ok (html, path), w1) →
     export_document self html path (lower fmt) w1 = (Raise e, w2) →
     generate_report self student vs fmt w =
       (Ok None,
        World (trace w2 ++ [Log ERROR ("Failed to generate report: " +:+ str_exn e)])
              (ext w2))) ∧
  returns (generate_report self student vs fmt) ∧
  (∀ (w w' : world E) e,
     vs ≠ [] →
     timeline_chart self vs sid w = (Raise e, w') →
     _generate_timeline self vs sid w =
       (Ok None,
        World (trace w' ++ [Log ERROR ("Failed to generate timeline: " +:+ str_exn e)])
              (ext w'))) ∧
  (∀ (w w' : world E) e,
     vs ≠ [] →
     heatmap_chart self vs sid w = (Raise e, w') →
     _generate_heatmap self vs sid w =
       (Ok None,
        World (trace w' ++ [Log ERROR ("Failed to generate heatmap: " +:+ str_exn e)])
              (ext w'))) ∧
  returns (_generate_timeline self vs sid) ∧
  returns (_generate_heatmap self vs sid) ∧
  reaches (Now "%Y-%m-%d %H:%M:%S") (generate_report self student vs fmt).
Proof.
  split; [|split; [apply generate_report_returns|]].
  - intros html path w w1 w2 e Hcompose Hexport.
    assert (Hbody : generate_report_body self student vs fmt w = (Raise e, w2)).
    { unfold generate_report_body. by rewrite run_bind, Hcompose, run_bind, Hexport. }
    unfold generate_report. by rewrite (try_except_catches _ _ _ _ _ Hbody).
  - split; [intros; by apply timeline_failure_caught|].
    split; [intros; by apply heatmap_failure_caught|].
    split; [apply generate_timeline_returns|].
    split; [apply generate_heatmap_returns|].
    apply generate_report_reaches_render.
Qed.

End Report.

(** ** The report on a machine without display and without converter *)

Example headless_html_report :
  (@generate_report unit headless default_generator Main.student sample_log "HTML"
     (World [] tt)).1 =
  Ok (Some "/srv/./reports/generated/report_STUDENT_001_20240101_120000.html").
Proof. vm_compute. reflexivity. Qed.

Example headless_pdf_report :
  (@generate_report unit headless default_generator Main.student sample_log "PDF"
     (World [] tt)).1 = Ok None ∧
  last (trace (@generate_report unit headless default_generator Main.student
                 sample_log "PDF" (World [] tt)).2) =
  Some (Log ERROR "Failed to generate report: No wkhtmltopdf executable found").
Proof. split; vm_compute; reflexivity. Qed.

Lemma export_selected_by_format_witness :
  ∃ html path w1,
    @compose_document unit headless default_generator Main.student sample_log
      (lower "PDF") (World [] tt) = (Ok (html, path), w1) ∧
    (lower "PDF" = "pdf" ↔ "PDF" ∈ pdf_spellings) ∧
    ∃ warn last,
      trace (@generate_report unit headless default_generator Main.student
               sample_log "PDF" (World [] tt)).2 =
        (trace w1 ++
         (if decide (lower "PDF" = "pdf")
          then PathExists (pdfkit_path default_generator) :: warn ++
               [PdfkitFromString html path (pdfkit_path default_generator)]
          else [WriteFile path html]) ++ [last])%list ∧
      (∀ ev, ev ∈ warn → ∃ msg, ev = Log WARNING msg) ∧
      (∃ lvl msg, last = Log lvl msg).
Proof.
  exists "<html></html>",
         "./reports/generated/report_STUDENT_001_20240101_120000.pdf",
         (@compose_document unit headless default_generator Main.student sample_log
            (lower "PDF") (World [] tt)).2.
  split; [vm_compute; reflexivity|].
  apply (@export_selected_by_format unit headless default_generator).
  vm_compute. reflexivity.
Defined.

Lemma failures_are_contained_witness :
  ∃ html path w1 e w2 e' w',
    @compose_document unit headless default_generator Main.student sample_log
      (lower "pdf") (World [] tt) = (Ok (html, path), w1) ∧
    @export_document unit headless default_generator html path (lower "pdf") w1 =
      (Raise e, w2) ∧
    @generate_report unit headless default_generator Main.student sample_log "pdf"
      (World [] tt) =
      (Ok None,
       World (trace w2 ++ [Log ERROR ("Failed to generate report: " +:+ str_exn e)])
             (ext w2)) ∧
    sample_log ≠ [] ∧
    @timeline_chart unit headless default_generator sample_log "STUDENT_001"
      (World [] tt) = (Raise e', w') ∧
    @_generate_timeline unit headless default_generator sample_log "STUDENT_001"
      (World [] tt) =
      (Ok None,
       World (trace w' ++ [Log ERROR ("Failed to generate timeline: " +:+ str_exn e')])
             (ext w')).
Proof.
  destruct (@failures_are_contained unit headless default_generator Main.student
              sample_log "pdf" "STUDENT_001") as (Hconv & _ & Htimeline & _).
  pose (w1 := (@compose_document unit headless default_generator Main.student
                 sample_log (lower "pdf") (World [] tt)).2).
  pose (path := "./reports/generated/report_STUDENT_001_20240101_120000.pdf").
  exists "<html></html>", path, w1,
         (Error "No wkhtmltopdf executable found"),
         (@export_document unit headless default_generator "<html></html>" path
            (lower "pdf") w1).2,
         (Error "no display name"),
         (@timeline_chart unit headless default_generator sample_log "STUDENT_001"
            (World [] tt)).2.
  assert (Hcompose : @compose_document unit headless default_generator Main.student
            sample_log (lower "pdf") (World [] tt) = (Ok ("<html></html>", path), w1))
    by (vm_compute; reflexivity).
  assert (Hexport : @export_document unit headless default_generator "<html></html>"
            path (lower "pdf") w1 =
            (Raise (Error "No wkhtmltopdf executable found"),
             (@export_document unit headless default_generator "<html></html>" path
                (lower "pdf") w1).2))
    by (vm_compute; reflexivity).
  assert (Hchart : @timeline_chart unit headless default_generator sample_log
            "STUDENT_001" (World [] tt) =
            (Raise (Error "no display name"),
             (@timeline_chart unit headless default_generator sample_log "STUDENT_001"
                (World [] tt)).2))
    by (vm_compute; reflexivity).
  split; [exact Hcompose|]. split; [exact Hexport|].
  split; [exact (Hconv _ _ _ _ _ _ Hcompose Hexport)|].
  split; [discriminate|]. split; [exact Hchart|].
  apply (Htimeline _ _ _); [discriminate|exact Hchart].
Defined.

(** * Further properties of the statistics *)

Lemma occurrences_cons (t : string) (v : violation) (l : list violation) :
  occurrences t (v :: l) = (if decide (vtype v = t) then 1 else 0) + occurrences t l.
Proof.
  unfold occurrences. rewrite filter_cons. case_decide; cbn [length]; lia.
Qed.

Lemma occurrences_nonneg t l : 0 ≤ occurrences t l.
Proof. unfold occurrences. lia. Qed.

Lemma occurrences_app t l1 l2 :
  occurrences t (l1 ++ l2)%list = occurrences t l1 + occurrences t l2.
Proof. unfold occurrences. rewrite filter_app, length_app. lia. Qed.

Lemma occurrences_zero t l : occurrences t l = 0 ↔ t ∉ vtype <$> l.
Proof.
  induction l as [|v l IH].
  - cbn. split; [intros _; apply not_elem_of_nil|done].
  - rewrite occurrences_cons, fmap_cons, not_elem_of_cons.
    pose proof (occurrences_nonneg t l). case_decide; split.
    + lia.
    + intros [? _]. congruence.
    + intros ?. split; [congruence|]. apply IH. lia.
    + intros [_ ?%IH]. lia.
Qed.

(** The counts the loop has reached, key by key. *)
Lemma loop_by_type_lookup l s t :
  by_type (fold_left stats_step l s) !! t =
  if occurrences t l =? 0 then by_type s !! t
  else Some (default 0 (by_type s !! t) + occurrences t l).
Proof.
  revert s. induction l as [|v l IH]; intros s; [done|].
  cbn [fold_left]. rewrite IH, occurrences_cons. cbn [stats_step by_type].
  pose proof (occurrences_nonneg t l).
  rewrite lookup_insert. case_decide as Hv.
  - subst t. destruct (Z.eqb_spec (occurrences (vtype v) l) 0) as [->|?];
      destruct (Z.eqb_spec (1 + occurrences (vtype v) l) 0); cbn; try lia;
      f_equal; lia.
  - by rewrite Z.add_0_l.
Qed.

Lemma sumZ_severity_bounds (l : list violation) :
  Z.of_nat (length l) ≤ sumZ ((λ v, severity_of (vtype v)) <$> l) ≤
  5 * Z.of_nat (length l).
Proof.
  induction l as [|v l IH]; unfold sumZ in *; cbn [fmap list_fmap foldr length].
  - lia.
  - pose proof (severity_of_bounds (vtype v)). lia.
Qed.

(** X1: [stats['by_type']] holds, for each type that occurs in the log, the
    number of records of that type, and has no key for a type that does not
    occur. *)
Theorem by_type_counts_occurrences (l : list violation) :
  ∃ s, computeStats l = Ok s ∧
       ∀ t, by_type s !! t = count_entry (occurrences t l) ∧
            (is_Some (by_type s !! t) ↔ t ∈ vtype <$> l).
Proof.
  eexists. rewrite computeStats_ok. split; [done|]. intros t.
  cbn [by_type]. rewrite loop_by_type_lookup. cbn [init_stats by_type].
  rewrite lookup_empty. unfold count_entry. cbn [default]. rewrite Z.add_0_l.
  split; [done|].
  pose proof (occurrences_zero t l) as Hz.
  destruct (Z.eqb_spec (occurrences t l) 0) as [H0|Hn0].
  - split; [by intros [? [=]]|]. intros Hin. by apply Hz in H0.
  - split; [|by eauto]. intros _.
    destruct (decide (t ∈ vtype <$> l)) as [|Hnot]; [done|].
    by apply Hz in Hnot.
Qed.

(** X2: the severity score lies between the number of records and five
    times that number, so a non-empty log has an average severity between 1
    and 5, and only the empty log has the integer average 0. *)
Theorem severity_score_bounds (l : list violation) :
  ∃ s, computeStats l = Ok s ∧
       total s ≤ severity_score s ≤ 5 * total s ∧
       match l with
       | [] => average_severity s = Some (PyInt 0)
       | _ => ∃ q, average_severity s = Some (PyFloat q) ∧ (1 <= q)%Q ∧ (q <= 5)%Q
       end.
Proof.
  eexists. rewrite computeStats_ok. split; [done|].
  cbn [total severity_score average_severity].
  pose proof (sumZ_severity_bounds l) as Hb. split; [done|].
  destruct l as [|v l]; [done|].
  unfold average_for. set (n := Z.of_nat (length (v :: l))) in *.
  set (sc := sumZ _) in *.
  assert (Hn : 0 < n) by (unfold n; cbn [length]; lia).
  destruct (Z.eqb_spec n 0); [lia|]. eexists. split; [done|].
  assert (HnQ : (0 < inject_Z n)%Q) by (by rewrite (Zlt_Qlt 0 n) in Hn).
  split.
  - apply Qle_shift_div_l; [done|]. rewrite Qmult_1_l. rewrite <- Zle_Qle. lia.
  - apply Qle_shift_div_r; [done|].
    change 5%Q with (inject_Z 5). rewrite <- inject_Z_mult, <- Zle_Qle. lia.
Qed.

(** X3: for a log of n records the integrity score is at least
    max(0, 100 - 25 n) and at most max(0, 100 - 5 n): it lies between 0 and
    100, is 100 only for the empty log, and is 0 from twenty records on. *)
Theorem integrity_score_range (l : list violation) :
  ∃ s i, computeStats l = Ok s ∧ integrity_score s = Some i ∧
         Z.max 0 (100 - 25 * Z.of_nat (length l)) ≤ i ∧
         i ≤ Z.max 0 (100 - 5 * Z.of_nat (length l)) ∧
         0 ≤ i ≤ 100 ∧
         (i = 100 ↔ l = []).
Proof.
  do 2 eexists. rewrite computeStats_ok. split; [done|]. split; [done|].
  pose proof (sumZ_severity_bounds l) as Hb.
  repeat split; try lia.
  - intros Hi. destruct l; [done|]. cbn [length] in Hb. lia.
  - intros ->. reflexivity.
Qed.

(** X4: the statistics of two logs put one after the other: totals and
    severity scores add up, the timelines follow each other, and the counts
    by type are added key by key. *)
Theorem computeStats_app (l1 l2 : list violation) :
  ∃ s1 s2 s,
    computeStats l1 = Ok s1 ∧ computeStats l2 = Ok s2 ∧
    computeStats (l1 ++ l2) = Ok s ∧
    total s = total s1 + total s2 ∧
    severity_score s = severity_score s1 + severity_score s2 ∧
    timeline s = (timeline s1 ++ timeline s2)%list ∧
    by_type s = union_with (λ a b, Some (a + b)) (by_type s1) (by_type s2).
Proof.
  do 3 eexists. rewrite !computeStats_ok. do 3 (split; [done|]).
  cbn [total severity_score timeline by_type].
  rewrite length_app, !fmap_app, sumZ_app.
  split; [lia|]. split; [done|]. split; [done|].
  apply map_eq. intros t. rewrite lookup_union_with, !loop_by_type_lookup.
  cbn [init_stats by_type]. rewrite lookup_empty, occurrences_app. cbn [default].
  pose proof (occurrences_nonneg t l1). pose proof (occurrences_nonneg t l2).
  destruct (Z.eqb_spec (occurrences t l1 + occurrences t l2) 0);
    destruct (Z.eqb_spec (occurrences t l1) 0);
    destruct (Z.eqb_spec (occurrences t l2) 0); cbn; try lia; f_equal; lia.
Qed.

(** * The frequency chart *)

(** The dict update of the heat map, read as a finite map, is the update of
    [by_type]. *)
Lemma count_up_list_to_map (k : string) (c : list (string * Z)) :
  (list_to_map (count_up k c) : gmap string Z) =
  <[k := default 0 ((list_to_map c : gmap string Z) !! k) + 1]> (list_to_map c).
Proof.
  induction c as [|[k' n] c IH]; cbn [count_up list_to_map foldr].
  - by rewrite lookup_empty.
  - case_decide as Hk.
    + subst k'. cbn [list_to_map foldr uncurry fst snd].
      rewrite lookup_insert_eq. cbn [default]. by rewrite insert_insert_eq.
    + cbn [list_to_map foldr uncurry fst snd] in *.
      rewrite lookup_insert_ne by done. rewrite IH. by apply insert_insert_ne.
Qed.

Lemma count_up_keys (k : string) (c : list (string * Z)) :
  (count_up k c).*1 = if decide (k ∈ c.*1) then c.*1 else (c.*1 ++ [k])%list.
Proof.
  induction c as [|[k' n] c IH]; cbn [count_up fmap list_fmap fst].
  - case_decide as H; [by apply elem_of_nil in H|done].
  - destruct (decide (k' = k)) as [->|Hne].
    + cbn [fmap list_fmap fst]. rewrite decide_True; [done|]. apply elem_of_cons. by left.
    + cbn [fmap list_fmap fst]. rewrite IH.
      destruct (decide (k ∈ c.*1)) as [Hin|Hnot].
      * rewrite decide_True; [done|]. apply elem_of_cons. by right.
      * rewrite decide_False; [done|]. intros [?|?]%elem_of_cons; congruence.
Qed.

Lemma count_up_NoDup k c : NoDup c.*1 → NoDup (count_up k c).*1.
Proof.
  intros Hc. rewrite count_up_keys. case_decide; [done|].
  apply NoDup_app. split; [done|]. split; [|apply NoDup_singleton].
  intros x Hx ->%list_elem_of_singleton. done.
Qed.

Lemma count_up_nonempty k c : count_up k c ≠ [].
Proof. destruct c as [|[k' n] c]; cbn; [done|]. by case_decide. Qed.

Lemma heatmap_counts_snoc vs v :
  heatmap_counts (vs ++ [v]) = count_up (vtype v) (heatmap_counts vs).
Proof. unfold heatmap_counts. by rewrite fold_left_app. Qed.

Lemma heatmap_counts_NoDup vs : NoDup (heatmap_counts vs).*1.
Proof.
  induction vs as [|v vs IH] using rev_ind; [apply NoDup_nil_2|].
  rewrite heatmap_counts_snoc. by apply count_up_NoDup.
Qed.

Lemma heatmap_counts_nonempty vs : vs ≠ [] → heatmap_counts vs ≠ [].
Proof.
  destruct vs as [|v vs _] using rev_ind; [done|]. intros _.
  rewrite heatmap_counts_snoc. apply count_up_nonempty.
Qed.

Lemma heatmap_counts_lookup vs t :
  (list_to_map (heatmap_counts vs) : gmap string Z) !! t =
  count_entry (occurrences t vs).
Proof.
  induction vs as [|v vs IH] using rev_ind; [done|].
  rewrite heatmap_counts_snoc, count_up_list_to_map, occurrences_app.
  rewrite lookup_insert.
  pose proof (occurrences_nonneg t vs).
  rewrite occurrences_cons. change (occurrences t []) with 0.
  case_decide as Hv; [subst t|]; rewrite IH; unfold count_entry.
  - destruct (Z.eqb_spec (occurrences (vtype v) vs) 0);
      destruct (Z.eqb_spec (occurrences (vtype v) vs + (1 + 0)) 0);
      cbn; try lia; f_equal; lia.
  - by rewrite !Z.add_0_r.
Qed.

(** The insertion step of the descending sort. *)
Lemma insert_desc_perm x l : insert_desc x l ≡ₚ x :: l.
Proof.
  induction l as [|y l IH]; cbn [insert_desc]; [done|].
  destruct (x.2 <? y.2); [|done]. rewrite IH. apply perm_swap.
Qed.

Lemma sorted_desc_perm l : sorted_desc l ≡ₚ l.
Proof.
  induction l as [|x l IH]; [done|].
  cbn [sorted_desc foldr]. rewrite insert_desc_perm. by constructor.
Qed.

Lemma insert_desc_sorted x l :
  StronglySorted (λ a b : string * Z, b.2 ≤ a.2) l →
  StronglySorted (λ a b : string * Z, b.2 ≤ a.2) (insert_desc x l).
Proof.
  induction 1 as [|y l Hl IH Hy]; cbn [insert_desc].
  - repeat constructor.
  - destruct (Z.ltb_spec x.2 y.2) as [Hlt|Hge].
    + constructor; [done|]. rewrite insert_desc_perm. constructor; [lia|done].
    + constructor; [by constructor|]. constructor; [done|].
      eapply Forall_impl; [exact Hy|]. intros z Hz. cbn in *. lia.
Qed.

Lemma insert_desc_filter c x l :
  filter (λ p : string * Z, p.2 = c) (insert_desc x l) =
  filter (λ p : string * Z, p.2 = c) (x :: l).
Proof.
  induction l as [|y l IH]; cbn [insert_desc]; [done|].
  destruct (Z.ltb_spec x.2 y.2) as [Hlt|Hge]; [|done].
  rewrite (filter_cons _ y), IH, !filter_cons.
  repeat case_decide; try done; lia.
Qed.

Lemma count_up_sum k c : sumZ (count_up k c).*2 = sumZ c.*2 + 1.
Proof.
  induction c as [|[k' n] c IH]; cbn [count_up]; [done|].
  case_decide; cbn [fmap list_fmap snd]; unfold sumZ in *; cbn [foldr] in *; lia.
Qed.

Lemma heatmap_counts_sum vs : sumZ (heatmap_counts vs).*2 = Z.of_nat (length vs).
Proof.
  induction vs as [|v vs IH] using rev_ind; [done|].
  rewrite heatmap_counts_snoc, count_up_sum, IH, length_app. cbn [length]. lia.
Qed.

(** X5: the ranking used for the bars is a stable descending sort: it
    rearranges the items, leaves no item before one of a greater count, and
    keeps items of equal count in their original order. *)
Theorem sorted_desc_stable (items : list (string * Z)) :
  sorted_desc items ≡ₚ items ∧
  StronglySorted (λ a b : string * Z, b.2 ≤ a.2) (sorted_desc items) ∧
  ∀ c, filter (λ p : string * Z, p.2 = c) (sorted_desc items) =
       filter (λ p : string * Z, p.2 = c) items.
Proof.
  split; [apply sorted_desc_perm|]. split.
  - induction items as [|x l IH]; [constructor|].
    cbn [sorted_desc foldr]. by apply insert_desc_sorted.
  - intros c. induction items as [|x l IH]; [done|].
    cbn [sorted_desc foldr]. rewrite insert_desc_filter, !filter_cons.
    fold (sorted_desc l). by rewrite IH.
Qed.

(** X6: the frequency chart has one bar for each type that occurs in the
    log and no other; the value of a bar is the number of records of its
    type, the values add up to the number of records, and the bars hold the
    same counts as [stats['by_type']]. *)
Theorem heatmap_bars_counts (vs : list violation) :
  NoDup (heatmap_bars vs).*1 ∧
  (∀ t n, (t, n) ∈ heatmap_bars vs ↔ n = occurrences t vs ∧ 0 < n) ∧
  sumZ (heatmap_bars vs).*2 = Z.of_nat (length vs) ∧
  ∃ s, computeStats vs = Ok s ∧
       (list_to_map (heatmap_bars vs) : gmap string Z) = by_type s.
Proof.
  pose proof (sorted_desc_perm (heatmap_counts vs)) as Hperm.
  pose proof (heatmap_counts_NoDup vs) as Hnd.
  assert (Hbars : NoDup (heatmap_bars vs).*1).
  { unfold heatmap_bars. by rewrite Hperm. }
  assert (Hlookup : ∀ t, (list_to_map (heatmap_bars vs) : gmap string Z) !! t =
                         count_entry (occurrences t vs)).
  { intros t. rewrite <- heatmap_counts_lookup. unfold heatmap_bars.
    by rewrite (list_to_map_proper _ _ Hbars Hperm). }
  split; [done|]. split; [|split].
  - intros t n. rewrite (elem_of_list_to_map (M:=gmap string) _ t n Hbars).
    rewrite Hlookup. unfold count_entry.
    pose proof (occurrences_nonneg t vs).
    destruct (Z.eqb_spec (occurrences t vs) 0); split.
    + done.
    + lia.
    + intros [= <-]. lia.
    + by intros [-> _].
  - unfold heatmap_bars. rewrite <- heatmap_counts_sum.
    apply sumZ_permutation. by rewrite Hperm.
  - eexists. rewrite computeStats_ok. split; [done|]. cbn [by_type].
    apply map_eq. intros t. rewrite Hlookup, loop_by_type_lookup.
    cbn [init_stats by_type]. rewrite lookup_empty. unfold count_entry.
    cbn [default]. by rewrite Z.add_0_l.
Qed.

(** X7: a log whose records all have the same type gives a chart with
    exactly one bar, of that type, as long as the log. *)
Theorem heatmap_single_type (t : string) (vs : list violation) :
  vs ≠ [] → Forall (λ v, vtype v = t) vs →
  heatmap_bars vs = [(t, Z.of_nat (length vs))].
Proof.
  intros Hne Hall.
  assert (Hcounts : heatmap_counts vs = [(t, Z.of_nat (length vs))]);
    [|unfold heatmap_bars; by rewrite Hcounts].
  induction vs as [|v vs IH] using rev_ind; [done|].
  apply Forall_app in Hall as [Hvs Hv]. apply Forall_inv in Hv. cbn beta in Hv.
  rewrite heatmap_counts_snoc, Hv, length_app. cbn [length].
  destruct (decide (vs = [])) as [->|Hvs'].
  - reflexivity.
  - rewrite (IH Hvs' Hvs). cbn [count_up].
    rewrite decide_True by done. do 2 f_equal. lia.
Qed.

Lemma heatmap_single_type_witness :
  heatmap_bars [Violation "GAZE_AWAY" "t0"; Violation "GAZE_AWAY" "t1"] =
  [("GAZE_AWAY", 2)].
Proof.
  apply (heatmap_single_type "GAZE_AWAY"
           [Violation "GAZE_AWAY" "t0"; Violation "GAZE_AWAY" "t1"]).
  - discriminate.
  - repeat constructor.
Defined.

Lemma shade_of_bounds (t : string) : (1 # 5 <= shade_of t)%Q ∧ (shade_of t <= 1)%Q.
Proof.
  pose proof (severity_of_bounds t) as Hb.
  unfold shade_of, Qle, Qdiv, Qmult, Qinv, inject_Z. cbn. lia.
Qed.

Lemma mapM_result_ok {A B} (f : A → result B) (l : list A) (k : list B) :
  mapM f l = Ok k ↔ Forall2 (λ x y, f x = Ok y) l k.
Proof.
  revert k. induction l as [|x l IH]; intros k; cbn [mapM].
  - split; [intros [= <-]; constructor|by intros ->%Forall2_nil_inv_l].
  - destruct (f x) as [y|e] eqn:Hx; cbn.
    + destruct (mapM f l) as [k'|e] eqn:Hl; cbn.
      * split.
        -- unfold mret, result_ret. intros [= <-]. constructor; [done|]. by apply IH.
        -- intros (y' & k'' & Hy & Hk & ->)%Forall2_cons_inv_l.
           apply IH in Hk. unfold mret, result_ret. congruence.
      * split; [done|].
        intros (y' & k'' & Hy & Hk & ->)%Forall2_cons_inv_l.
        apply IH in Hk. congruence.
    + split; [done|].
      intros (y' & k'' & Hy & Hk & ->)%Forall2_cons_inv_l. congruence.
Qed.


Section Charts.
Context {E : Type} `{!Collaborators E} (self : generator).

(** X8: for a non-empty log the frequency chart is drawn exactly once, with
    the bars of [heatmap_bars] and a colour intensity between 0.2 and 1 for
    each; the method returns the image path when the drawing returns, and
    [None] with the cause logged when it raises. *)
Theorem heatmap_drawn_once (vs : list violation) (sid : string) (w : world E) :
  vs ≠ [] →
  let types := (heatmap_bars vs).*1 in
  let values := (heatmap_bars vs).*2 in
  let shades := shade_of <$> types in
  let path := path_join (image_dir self) ("heatmap_" +:+ sid +:+ ".png") in
  let ev := DrawHeatmap types values shades sid path in
  match draw_heatmap types values shades sid path (ext w) with
  | (Ok _, x) =>
      _generate_heatmap self vs sid w = (Ok (Some path), World (trace w ++ [ev]) x)
  | (Raise e, x) =>
      _generate_heatmap self vs sid w =
        (Ok None,
         World (trace w ++ [ev; Log ERROR ("Failed to generate heatmap: " +:+ str_exn e)]) x)
  end ∧
  length shades = length values ∧
  Forall (λ q, (1 # 5 <= q)%Q ∧ (q <= 1)%Q) shades.
Proof.
  intros Hne. cbn zeta. split; [|split].
  - unfold _generate_heatmap, try_except, heatmap_chart.
    destruct vs as [|v vs']; [done|]. fold (heatmap_counts (v :: vs')).
    pose proof (heatmap_counts_nonempty (v :: vs') Hne) as Hc.
    destruct (heatmap_counts (v :: vs')) as [|c0 cs] eqn:Hcounts; [done|].
    rewrite <- Hcounts. fold (heatmap_bars (v :: vs')).
    rewrite run_call_bind. unfold shade_of.
    destruct (draw_heatmap _ _ _ _ _ _) as [[?|e] x]; cbn [ext trace]; [done|].
    rewrite run_bind. cbn [log mret M_ret ext trace]. by rewrite <- app_assoc.
  - by rewrite !length_fmap.
  - apply Forall_fmap, Forall_forall. intros t _. apply shade_of_bounds.
Qed.


(** X10: when every timestamp parses, the timeline chart is drawn exactly
    once with one point per record, in the order of the log: the i-th time,
    severity and label are those of the i-th record. *)
Theorem timeline_one_point_per_record (vs : list violation) (sid : string)
    (w : world E) (times : list datetime) :
  vs ≠ [] →
  Forall2 (λ v d, strptime (timestamp v) "%Y%m%d_%H%M%S_%f" = Ok d) vs times →
  let severities := (λ v, severity_of (vtype v)) <$> vs in
  let labels := vtype <$> vs in
  let path := path_join (image_dir self) ("timeline_" +:+ sid +:+ ".png") in
  let ev := DrawTimeline times severities labels sid path in
  match draw_timeline times severities labels sid path (ext w) with
  | (Ok _, x) =>
      _generate_timeline self vs sid w = (Ok (Some path), World (trace w ++ [ev]) x)
  | (Raise e, x) =>
      _generate_timeline self vs sid w =
        (Ok None,
         World (trace w ++ [ev; Log ERROR ("Failed to generate timeline: " +:+ str_exn e)]) x)
  end ∧
  length times = length vs ∧ length severities = length vs ∧
  length labels = length vs.
Proof.
  intros Hne Htimes. cbn zeta. split.
  - apply mapM_result_ok in Htimes.
    unfold _generate_timeline, try_except, timeline_chart.
    destruct vs as [|v vs']; [done|].
    rewrite run_bind. unfold pure_result. rewrite Htimes.
    rewrite run_call_bind.
    destruct (draw_timeline _ _ _ _ _ _) as [[?|e] x]; cbn [ext trace]; [done|].
    rewrite run_bind. cbn [log mret M_ret ext trace]. by rewrite <- app_assoc.
  - rewrite !length_fmap. by rewrite (Forall2_length _ _ _ Htimes).
Qed.

End Charts.

Lemma heatmap_drawn_once_witness :
  @_generate_heatmap unit headless default_generator sample_log "STUDENT_001"
    (World [] tt) =
  (Ok None,
   World [ DrawHeatmap ["MULTIPLE_FACES"; "OBJECT_DETECTED"; "MOUTH_MOVING";
                         "FACE_DISAPPEARED"]
             [2; 1; 1; 1] [4 # 5; 5 # 5; 3 # 5; 1 # 5]%Q "STUDENT_001"
             "./reports/generated/images/heatmap_STUDENT_001.png";
           Log ERROR "Failed to generate heatmap: no display name" ] tt).
Proof.
  assert (Hne : sample_log ≠ []) by discriminate.
  exact (proj1 (@heatmap_drawn_once unit headless default_generator sample_log
                  "STUDENT_001" (World [] tt) Hne)).
Defined.


Lemma timeline_one_point_per_record_witness :
  @_generate_timeline unit strict_clock default_generator sample_log "STUDENT_001"
    (World [] tt) =
  (Ok (Some "./reports/generated/images/timeline_STUDENT_001.png"),
   World [ DrawTimeline (replicate 5 (Datetime 2024 1 1 12 0 0 0)) [4; 4; 5; 3; 1]
             ["MULTIPLE_FACES"; "MULTIPLE_FACES"; "OBJECT_DETECTED"; "MOUTH_MOVING";
              "FACE_DISAPPEARED"]
             "STUDENT_001" "./reports/generated/images/timeline_STUDENT_001.png" ] tt).
Proof.
  assert (Hne : sample_log ≠ []) by discriminate.
  assert (Htimes : Forall2
            (λ v d, @strptime unit strict_clock (timestamp v) "%Y%m%d_%H%M%S_%f" = Ok d)
            sample_log (replicate 5 (Datetime 2024 1 1 12 0 0 0)))
    by (repeat constructor).
  exact (proj1 (@timeline_one_point_per_record unit strict_clock default_generator
                  sample_log "STUDENT_001" (World [] tt) _ Hne Htimes)).
Defined.

(** * The calls of the frame loop *)

Section FrameCalls.
Context {E : Type} `{!Collaborators E}.



End FrameCalls.

(** * The overlay *)

(** X12: the overlay has between five and seven texts: the four status
    lines in green and then the alerts in red, the i-th of them at x = 10 and
    y = 30 (i + 1), and last the frame's timestamp in white, 250 pixels from
    the right edge at y = 30. *)
Theorem overlay_layout (frame_width : Z) (r : results) :
  Main.display_detection_results frame_width r =
    (imap (λ i item,
             Main.PutText item (10, 30 * (Z.of_nat i + 1))
               (if (i <? 4)%nat then (0, 255, 0) else (0, 0, 255)))
          (Main.status_items r ++ Main.alert_items r) ++
     [Main.PutText (frame_timestamp r) (frame_width - 250, 30) (255, 255, 255)])%list ∧
  (5 ≤ length (Main.display_detection_results frame_width r) ≤ 7)%nat.
Proof.
  unfold Main.display_detection_results, Main.alert_items.
  destruct (multiple_faces r), (objects_detected r); split; cbn; (reflexivity || lia).
Qed.


(** * Further properties of the report *)

Section Emits.
Context {E : Type} (P : event → Prop).

Lemma emits_ret {A} (a : A) : emits P (mret a : M E A).
Proof. intros w. exists []. cbn. rewrite app_nil_r. by split. Qed.

Lemma emits_pure_result {A} (r : result A) : emits P (pure_result r : M E A).
Proof. intros w. exists []. cbn. rewrite app_nil_r. by split. Qed.

Lemma emits_call {A} ev (f : E → result A * E) : P ev → emits P (call ev f).
Proof. intros Hev w. exists [ev]. rewrite run_call. split; [done|]. by constructor. Qed.

Lemma emits_log lvl msg : P (Log lvl msg) → emits P (log lvl msg : M E unit).
Proof. intros Hev w. exists [Log lvl msg]. split; [done|]. by constructor. Qed.

Lemma emits_bind {A B} (m : M E A) (k : A → M E B) :
  emits P m → (∀ a, emits P (k a)) → emits P (m ≫= k).
Proof.
  intros Hm Hk w. rewrite run_bind.
  destruct (Hm w) as (new1 & H1 & HP1). destruct (m w) as [[a|e] w1]; cbn in H1.
  - destruct (Hk a w1) as (new2 & H2 & HP2). exists (new1 ++ new2)%list.
    rewrite H2, H1, app_assoc. split; [done|]. by apply Forall_app.
  - by exists new1.
Qed.

Lemma emits_try_except {A} (body : M E A) handler :
  emits P body → (∀ e, emits P (handler e)) → emits P (try_except body handler).
Proof.
  intros Hb Hh w. unfold try_except.
  destruct (Hb w) as (new1 & H1 & HP1). destruct (body w) as [[a|e] w1]; cbn in H1.
  - by exists new1.
  - destruct (Hh e w1) as (new2 & H2 & HP2). exists (new1 ++ new2)%list.
    rewrite H2, H1, app_assoc. split; [done|]. by apply Forall_app.
Qed.

End Emits.

Lemma lower_char_idemp (c : ascii) : lower_char (lower_char c) = lower_char c.
Proof. by destruct c as [[] [] [] [] [] [] [] []]. Qed.

Lemma lower_idemp (s : string) : lower (lower s) = lower s.
Proof.
  induction s as [|c s IH]; cbn [lower]; [done|]. by rewrite lower_char_idemp, IH.
Qed.


Lemma emits_ret_bind {E A B} P (a : A) (k : A → M E B) :
  emits P (k a) → emits P (mret a ≫= k).
Proof. intros H w. rewrite run_bind. apply H. Qed.

Lemma emits_pure_bind {E A B} P (a : A) (k : A → M E B) :
  emits P (k a) → emits P (pure_result (Ok a) ≫= k).
Proof. intros H w. rewrite run_bind. apply H. Qed.

Section ReportMore.
Context {E : Type} `{!Collaborators E} (self : generator).

(** X13: the report of an empty log draws no chart, and whenever it renders
    the template it hands it [has_images = False], no image path, and the
    statistics of the empty log (total 0, score 0, average 0, integrity
    100); this holds whatever the collaborators answer. *)
Theorem empty_log_report (student : student_info) (fmt : string) :
  emits empty_report_call (generate_report self student [] fmt).
Proof.
  unfold generate_report. apply emits_try_except.
  2:{ intros e. apply emits_bind; [apply emits_log; exact I|]. intros _. apply emits_ret. }
  unfold generate_report_body. apply emits_bind.
  - unfold compose_document.
    change (computeStats []) with (Ok (Stats 0 ∅ [] 0 (Some (PyInt 0)) (Some 100))).
    apply emits_pure_bind. cbn [_generate_timeline _generate_heatmap].
    do 2 apply emits_ret_bind.
    apply emits_bind; [apply emits_call; exact I|]. intros generated_at.
    apply emits_bind; [apply emits_call; by repeat split|]. intros html_content.
    apply emits_bind; [apply emits_call; exact I|]. intros timestamp.
    apply emits_ret.
  - intros [html path]. apply emits_bind.
    + unfold export_document. case_decide; [|apply emits_call; exact I].
      apply emits_bind; [apply emits_call; exact I|]. intros found.
      apply emits_bind; [|intros _; apply emits_call; exact I].
      destruct found; [apply emits_ret|apply emits_log; exact I].
    + intros _. apply emits_bind; [apply emits_log; exact I|]. intros _. apply emits_ret.
Qed.


(** X15: the case of the format argument changes nothing: a format and its
    lower-case form give the same calls, the same file name and the same
    result. *)
Theorem generate_report_ignores_case (student : student_info) (vs : list violation)
    (fmt : string) (w : world E) :
  generate_report self student vs fmt w =
  generate_report self student vs (lower fmt) w.
Proof.
  unfold generate_report, generate_report_body. by rewrite lower_idemp.
Qed.

(** X16: when the converter binary is not found at the configured path the
    export only logs a warning: the conversion is attempted all the same,
    and the export returns or raises exactly as the converter does. *)
Theorem missing_converter_only_warns (html path : string) (w : world E) :
  let exe := pdfkit_path self in
  trace (export_document self html path "pdf" w).2 =
    (trace w ++ PathExists exe ::
       (if path_exists exe (ext w) then []
        else [Log WARNING ("wkhtmltopdf not found at " +:+ exe)]) ++
       [PdfkitFromString html path exe])%list ∧
  (export_document self html path "pdf" w).1 =
    (pdfkit_from_string html path exe (ext w)).1.
Proof.
  cbn zeta. unfold export_document. rewrite decide_True by done.
  rewrite run_call_bind. cbn [ext trace].
  destruct (path_exists (pdfkit_path self) (ext w)).
  - rewrite run_bind. cbn [mret M_ret]. rewrite run_call. cbn [ext trace fst snd].
    by rewrite <- app_assoc.
  - rewrite run_bind. cbn [log]. rewrite run_call. cbn [ext trace fst snd].
    by rewrite <- !app_assoc.
Qed.

Lemma truthy_image (abspath : string → string) (image : option string) :
  truthy image = true ↔
  is_Some (if truthy image then abspath <$> image else None).
Proof.
  destruct image as [[|c s]|]; cbn; split; try done; by intros [? [=]].
Qed.

(** X17: whatever the collaborators answer, the template is rendered only
    as [base_report.html] and only with this report's data: the student,
    the full log, the statistics of the log with its integrity score, and a
    [has_images] flag that is true exactly when a timeline or a heat map
    image path is handed over. *)
Theorem template_gets_report_data (student : student_info) (vs : list violation)
    (fmt : string) :
  emits (report_call student vs) (generate_report self student vs fmt).
Proof.
  unfold generate_report. apply emits_try_except.
  2:{ intros e. apply emits_bind; [apply emits_log; exact I|]. intros _. apply emits_ret. }
  unfold generate_report_body. apply emits_bind.
  - unfold compose_document. rewrite computeStats_ok. apply emits_pure_bind.
    apply emits_bind.
    { unfold _generate_timeline, timeline_chart. destruct vs; [apply emits_ret|].
      apply emits_try_except.
      - apply emits_bind; [apply emits_pure_result|]. intros times.
        apply emits_bind; [apply emits_call; exact I|]. intros _. apply emits_ret.
      - intros e. apply emits_bind; [apply emits_log; exact I|]. intros _.
        apply emits_ret. }
    intros timeline_image. apply emits_bind.
    { unfold _generate_heatmap, heatmap_chart. destruct vs; [apply emits_ret|].
      apply emits_try_except.
      - destruct (fold_left _ _ _); [apply emits_ret|].
        apply emits_bind; [apply emits_call; exact I|]. intros _. apply emits_ret.
      - intros e. apply emits_bind; [apply emits_log; exact I|]. intros _.
        apply emits_ret. }
    intros heatmap_image.
    apply emits_bind; [apply emits_call; exact I|]. intros generated_at.
    apply emits_bind.
    { apply emits_call. cbn. do 3 (split; [done|]). split; [apply computeStats_ok|].
      rewrite orb_true_iff, !truthy_image. done. }
    intros html_content.
    apply emits_bind; [apply emits_call; exact I|]. intros timestamp. apply emits_ret.
  - intros [html path]. apply emits_bind.
    + unfold export_document. case_decide; [|apply emits_call; exact I].
      apply emits_bind; [apply emits_call; exact I|]. intros found.
      apply emits_bind; [|intros _; apply emits_call; exact I].
      destruct found; [apply emits_ret|apply emits_log; exact I].
    + intros _. apply emits_bind; [apply emits_log; exact I|]. intros _. apply emits_ret.
Qed.

End ReportMore.
